(** * New Year Wave: the solar-midnight model of [src/App.jsx]

    The React component computes, from the current UTC instant
    [currentTime] (a Luxon [DateTime]), the longitude at solar midnight, the
    phase of the new-year wave, its coverage, a countdown, the new-year
    membership test of a longitude and the predicted solar-midnight instant
    of a longitude.  Each [useMemo]/[useCallback] body is embedded below as
    a function of the values it closes over.

    Numbers.  JavaScript numbers are embedded as exact rationals [Q]
    (comparisons with [Qle_bool], equality up to [==]); the integer calendar
    fields of a [DateTime] are [Z].  Rounding of IEEE doubles is not
    modelled. *)

From Stdlib Require Import ZArith QArith Qround Qabs Lqa Lia Bool.
From Stdlib Require Import List Ascii String DecimalString.

Local Open Scope Q_scope.

(** ** JavaScript comparisons on numbers *)

Definition Qltb (a b : Q) : bool := negb (Qle_bool b a).
Definition Qgtb (a b : Q) : bool := negb (Qle_bool a b).
Definition Qgeb (a b : Q) : bool := Qle_bool b a.

Infix "<?" := Qltb (at level 70, no associativity) : Q_scope.
Infix ">?" := Qgtb (at level 70, no associativity) : Q_scope.
Infix ">=?" := Qgeb (at level 70, no associativity) : Q_scope.
Infix "<=?" := Qle_bool (at level 70, no associativity) : Q_scope.

(** ** The part of Luxon the component uses *)

Module Luxon.

(** A [DateTime] in the UTC zone, by its calendar fields. *)
Record DateTime : Set := mkDateTime {
  year : Z;
  month : Z;
  day : Z;
  hour : Z;
  minute : Z;
  second : Z;
  millisecond : Z
}.

(** [DateTime.utc(year, month, day, hour, minute, second)] *)
Definition utc (y mo d h mi s : Z) : DateTime := mkDateTime y mo d h mi s 0.

Definition isLeapYear (y : Z) : bool :=
  ((y mod 4 =? 0) && (negb (y mod 100 =? 0) || (y mod 400 =? 0)))%Z.

Definition daysInMonth (y mo : Z) : Z :=
  (if mo =? 2 then (if isLeapYear y then 29 else 28)
   else if (mo =? 4) || (mo =? 6) || (mo =? 9) || (mo =? 11) then 30
   else 31)%Z.

(** The calendar fields denote a real UTC date and time of day. *)
Definition validDateTime (t : DateTime) : Prop :=
  (1 <= month t <= 12 /\ 1 <= day t <= daysInMonth (year t) (month t) /\
   0 <= hour t <= 23 /\ 0 <= minute t <= 59 /\ 0 <= second t <= 59 /\
   0 <= millisecond t <= 999)%Z.

(** Days from 0001-01-01 to January 1 of year [y] (proleptic Gregorian). *)
Definition daysBeforeYear (y : Z) : Z :=
  (365 * (y - 1) + (y - 1) / 4 - (y - 1) / 100 + (y - 1) / 400)%Z.

(** Days from January 1 to the first of month [mo] in a common year. *)
Definition daysBeforeMonth (mo : Z) : Z :=
  (if mo =? 1 then 0 else if mo =? 2 then 31 else if mo =? 3 then 59
   else if mo =? 4 then 90 else if mo =? 5 then 120 else if mo =? 6 then 151
   else if mo =? 7 then 181 else if mo =? 8 then 212 else if mo =? 9 then 243
   else if mo =? 10 then 273 else if mo =? 11 then 304 else 334)%Z.

(** Days from 1970-01-01 to the given civil date. *)
Definition daysFromEpoch (y mo d : Z) : Z :=
  (daysBeforeYear y + daysBeforeMonth mo
   + (if isLeapYear y && (2 <? mo) then 1 else 0) + (d - 1) - 719162)%Z.

(** [dt.toMillis()]: milliseconds since 1970-01-01T00:00:00Z. *)
Definition toMillis (t : DateTime) : Z :=
  ((((daysFromEpoch (year t) (month t) (day t) * 24 + hour t) * 60
     + minute t) * 60 + second t) * 1000 + millisecond t)%Z.

(** [dt.plus({ hours: h })] with a possibly fractional [h]: the result is
    the instant [h] hours later, given by its epoch milliseconds. *)
Definition plusHours (t : DateTime) (h : Q) : Q :=
  inject_Z (toMillis t) + h * 3600000.

(** A [Duration] over the units days, hours, minutes and seconds; the
    smallest unit carries the fraction. *)
Record Duration : Set := mkDuration {
  days : Q;
  hours : Q;
  minutes : Q;
  seconds : Q
}.

(** Split a non-negative number of milliseconds over the four units. *)
Definition shiftMillis (ms : Z) : Duration :=
  mkDuration (inject_Z (ms / 86400000))
             (inject_Z (ms mod 86400000 / 3600000))
             (inject_Z (ms mod 3600000 / 60000))
             (inject_Z (ms mod 60000) / 1000).

Definition negate (d : Duration) : Duration :=
  mkDuration (- days d) (- hours d) (- minutes d) (- seconds d).

(** [a.diff(b, ['days', 'hours', 'minutes', 'seconds'])], both in UTC, where
    every day has 24 hours. *)
Definition diff (a b : DateTime) : Duration :=
  if (toMillis b >? toMillis a)%Z
  then negate (shiftMillis (toMillis b - toMillis a))
  else shiftMillis (toMillis a - toMillis b).

(** [dur.toMillis()] *)
Definition durationToMillis (d : Duration) : Q :=
  days d * 86400000 + hours d * 3600000 + minutes d * 60000
  + seconds d * 1000.

End Luxon.

Import Luxon.

(** ** The component's derived values *)

Module App.

(** The [while] loops of [solarMidnightLon], each run for at most [fuel]
    iterations. *)
Fixpoint whileBelow (fuel : nat) (lon : Q) : Q :=
  match fuel with
  | O => lon
  | S n => if lon <? -180 then whileBelow n (lon + 360) else lon
  end.

Fixpoint whileAbove (fuel : nat) (lon : Q) : Q :=
  match fuel with
  | O => lon
  | S n => if lon >? 180 then whileAbove n (lon - 360) else lon
  end.

Definition normalizeWith (fuel1 fuel2 : nat) (lon : Q) : Q :=
  whileAbove fuel2 (whileBelow fuel1 lon).

(** A number of iterations that either loop cannot exceed from [lon]. *)
Definition loopBound (lon : Q) : nat :=
  S (Z.to_nat (Qfloor (Qabs lon / 360))).

(** "Normalize to -180 to 180":
    [while (lon < -180) lon += 360; while (lon > 180) lon -= 360;] *)
Definition normalize (lon : Q) : Q :=
  let lon1 := whileBelow (loopBound lon) lon in
  whileAbove (loopBound lon1) lon1.

(** [solarMidnightLon] *)
Definition solarMidnightLon (currentTime : DateTime) : Q :=
  let totalHours :=
    inject_Z (hour currentTime) + inject_Z (minute currentTime) / 60
    + inject_Z (second currentTime) / 3600 in
  let lon := - totalHours * 15 in
  normalize lon.

(** [displayYear] and [previousYear] *)
Definition displayYear (currentTime : DateTime) : Z :=
  (if month currentTime =? 12 then year currentTime + 1
   else year currentTime)%Z.

Definition previousYear (currentTime : DateTime) : Z :=
  (if month currentTime =? 12 then year currentTime
   else year currentTime - 1)%Z.

(** The three flags [inTransition], [transitionComplete] and
    [beforeTransition]. *)
Section Flags.
Variable currentTime : DateTime.

Let mo := month currentTime.
Let d := day currentTime.
Let h : Q := inject_Z (hour currentTime) + inject_Z (minute currentTime) / 60.
Let isDec31 : bool := ((mo =? 12) && (d =? 31))%Z.
Let isJan1 : bool := ((mo =? 1) && (d =? 1))%Z.

Definition inTransition : bool :=
  (isDec31 && (h >=? 12)) || (isJan1 && (h <? 12)).

Definition transitionComplete : bool :=
  (isJan1 && (h >=? 12))
  || ((mo =? 1) && (d >? 1))%Z
  || ((mo >? 1) && (mo <? 12))%Z.

Definition beforeTransition : bool :=
  (isDec31 && (h <? 12)) || ((mo =? 12) && (d <? 31))%Z.
End Flags.

(** The phases of the specification; [classify] reads the flags and yields
    a phase when exactly one flag is set. *)
Inductive Phase : Set := Before | During | Complete.

Definition classify (currentTime : DateTime) : option Phase :=
  match beforeTransition currentTime, inTransition currentTime,
        transitionComplete currentTime with
  | true, false, false => Some Before
  | false, true, false => Some During
  | false, false, true => Some Complete
  | _, _, _ => None
  end.

(** [countdown]: [None] is JavaScript's [null]. *)
Record Countdown : Set := mkCountdown {
  cd_days : Z;
  cd_hours : Z;
  cd_minutes : Z;
  cd_seconds : Z;
  cd_total : Q
}.

Definition countdown (currentTime : DateTime) : option Countdown :=
  if negb (beforeTransition currentTime) then None
  else
    let waveStart := utc (year currentTime) 12 31 12 0 0 in
    let dur := diff waveStart currentTime in
    if durationToMillis dur <=? 0 then None
    else Some (mkCountdown (Qfloor (days dur)) (Qfloor (hours dur))
                           (Qfloor (minutes dur)) (Qfloor (seconds dur))
                           (durationToMillis dur)).

(** [isNewYear], as a function of the three values it closes over.  In the
    eastern-hemisphere branch only the first [return] is reachable. *)
Definition isNewYear (inTransition transitionComplete : bool)
    (solarMidnightLon : Q) (lon : Q) : bool :=
  if negb inTransition && negb transitionComplete then false
  else if transitionComplete then true
  else
    let normLon :=
      if lon >? 180 then lon - 360
      else if lon <? -180 then lon + 360 else lon in
    let normMidnight := solarMidnightLon in
    if normMidnight <=? 0 then normLon >? normMidnight
    else (normLon >? normMidnight)
         || (normLon <? -180 + (180 - normMidnight)).

(** [isNewYear] in the phase vocabulary of the specification. *)
Definition isNewYearIn (p : Phase) (midnightLon lon : Q) : bool :=
  match p with
  | Before => isNewYear false false midnightLon lon
  | During => isNewYear true false midnightLon lon
  | Complete => isNewYear false true midnightLon lon
  end.

(** [isNewYear] as the component builds it at [currentTime]. *)
Definition isNewYearAt (currentTime : DateTime) (lon : Q) : bool :=
  isNewYear (inTransition currentTime) (transitionComplete currentTime)
            (solarMidnightLon currentTime) lon.

(** [coverage] *)
Definition coverage (currentTime : DateTime) : Q :=
  if beforeTransition currentTime then 0
  else if transitionComplete currentTime then 100
  else
    let mo := month currentTime in
    let d := day currentTime in
    let h := inject_Z (hour currentTime) + inject_Z (minute currentTime) / 60
             + inject_Z (second currentTime) / 3600 in
    if ((mo =? 12) && (d =? 31))%Z then ((h - 12) / 24) * 100
    else if ((mo =? 1) && (d =? 1))%Z then ((h + 12) / 24) * 100
    else 0.

(** [getSolarMidnightTime]: the resulting instant by its epoch
    milliseconds. *)
Definition getSolarMidnightTime (currentTime : DateTime) (lon : Q) : Q :=
  let hoursAfterWaveStart := (180 - lon) / 15 in
  let waveStart := utc (year currentTime) 12 31 12 0 0 in
  plusHours waveStart hoursAfterWaveStart.

(** The messages of [status], in the order of the source: the complete
    message, the seven bands of the wave, the three messages before the
    wave and the final fallback 'Awaiting New Year'. *)
Inductive Status : Set :=
| HappyNewYear
| WaveBeginning
| CrossingEastAsia
| CrossingSouthAsia
| CrossingEurope
| CrossingAtlantic
| CrossingAmericas
| FinalStretch
| AlmostThere
| WaveStartingSoon
| AwaitingWaveStart
| AwaitingNewYear.

(** [status] *)
Definition status (currentTime : DateTime) : Status :=
  if transitionComplete currentTime then HappyNewYear
  else if inTransition currentTime then
    let solarMidnightLon := solarMidnightLon currentTime in
    if solarMidnightLon >? 120 then WaveBeginning
    else if solarMidnightLon >? 60 then CrossingEastAsia
    else if solarMidnightLon >? 0 then CrossingSouthAsia
    else if solarMidnightLon >? -30 then CrossingEurope
    else if solarMidnightLon >? -90 then CrossingAtlantic
    else if solarMidnightLon >? -150 then CrossingAmericas
    else FinalStretch
  else if beforeTransition currentTime then
    match countdown currentTime with
    | Some c =>
        if ((cd_days c =? 0) && (cd_hours c <? 1))%Z then AlmostThere
        else if (cd_days c =? 0)%Z then WaveStartingSoon
        else AwaitingWaveStart
    | None => AwaitingWaveStart
    end
  else AwaitingNewYear.

(** [String(n)] for an integer [n]. *)
Definition jsString (n : Z) : string := NilZero.string_of_int (Z.to_int n).

(** [s.padStart(2, '0')] *)
Definition padStart2 (s : string) : string :=
  match String.length s with
  | O => "00"
  | S O => String "0" s
  | _ => s
  end%string.

(** [countdownDisplay]: the parts joined by a space. *)
Definition countdownDisplay (countdown : option Countdown) : option string :=
  match countdown with
  | None => None
  | Some c =>
      let parts1 :=
        if (cd_days c >? 0)%Z
        then (jsString (cd_days c) ++ "d")%string :: nil else nil in
      let clock :=
        (padStart2 (jsString (cd_hours c)) ++ ":"
         ++ padStart2 (jsString (cd_minutes c)) ++ ":"
         ++ padStart2 (jsString (cd_seconds c)))%string in
      Some (String.concat " " (parts1 ++ clock :: nil)%list)
  end.

End App.

Import App.

(** ** Vocabulary of the specification *)

(** The three cases a valid instant falls into. *)
Inductive PhaseCase (t : DateTime) : Phase -> Prop :=
| case_before :
    (month t = 12 /\ (day t < 31 \/ day t = 31 /\ hour t < 12))%Z ->
    PhaseCase t Before
| case_during :
    ((month t = 12 /\ day t = 31 /\ 12 <= hour t)
     \/ (month t = 1 /\ day t = 1 /\ hour t < 12))%Z ->
    PhaseCase t During
| case_complete :
    ((month t = 1 /\ (1 < day t \/ day t = 1 /\ 12 <= hour t))
     \/ 1 < month t < 12)%Z ->
    PhaseCase t Complete.

(** The window of [t] starts on December 31, 12:00:00 UTC of [t]'s
    previous year. *)
Definition windowStart (t : DateTime) : DateTime :=
  utc (previousYear t) 12 31 12 0 0.

(** Whole seconds since the epoch. *)
Definition wholeSeconds (t : DateTime) : Z := (toMillis t / 1000)%Z.

(** Hours elapsed since the window start, counted in whole seconds. *)
Definition hoursSinceWindowStart (t : DateTime) : Q :=
  inject_Z (wholeSeconds t - wholeSeconds (windowStart t)) / 3600.

(** Hours elapsed since the window start, to the millisecond. *)
Definition exactHoursSinceWindowStart (t : DateTime) : Q :=
  inject_Z (toMillis t - toMillis (windowStart t)) / 3600000.

(** The single wrap [isNewYear] applies to its argument, by name. *)
Definition wrapOnce (lon : Q) : Q :=
  if lon >? 180 then lon - 360
  else if lon <? -180 then lon + 360 else lon.

(** The time of day in hours, as [solarMidnightLon] and [coverage] read
    it. *)
Definition totalHours (t : DateTime) : Q :=
  inject_Z (hour t) + inject_Z (minute t) / 60 + inject_Z (second t) / 3600.

(** The instant [t] cut to its whole second, in epoch milliseconds. *)
Definition secondMillis (t : DateTime) : Q :=
  inject_Z (wholeSeconds t * 1000).

(** A decimal digit. *)
Definition isDigit (c : ascii) : bool :=
  ((48 <=? nat_of_ascii c) && (nat_of_ascii c <=? 57))%nat.

(** Exactly two decimal digits. *)
Definition twoDigits (s : string) : bool :=
  match s with
  | String c1 (String c2 EmptyString) => isDigit c1 && isDigit c2
  | _ => false
  end.

(** A clock reading: two digits, a colon, two digits, a colon, two
    digits. *)
Definition isClock (s : string) : bool :=
  match s with
  | String h1 (String h2 (String k1 (String m1 (String m2
      (String k2 (String s1 (String s2 EmptyString))))))) =>
      isDigit h1 && isDigit h2 && Ascii.eqb k1 ":" && isDigit m1
      && isDigit m2 && Ascii.eqb k2 ":" && isDigit s1 && isDigit s2
  | _ => false
  end.

(** * Proofs *)

(** ** Arithmetic preliminaries *)

(** Division by a constant becomes multiplication by its inverse, which
    linear arithmetic over [Q] understands. *)
Ltac qinv :=
  unfold Qdiv in *;
  repeat match goal with
  | |- context [Qinv (Qmake ?n ?d)] =>
      let c := eval vm_compute in (Qinv (Qmake n d)) in
      change (Qinv (Qmake n d)) with c
  | H : context [Qinv (Qmake ?n ?d)] |- _ =>
      let c := eval vm_compute in (Qinv (Qmake n d)) in
      change (Qinv (Qmake n d)) with c in H
  end.

(** Decide the integer tests of a goal by linear arithmetic. *)
Ltac ztest :=
  repeat match goal with
  | |- context [(?a =? ?b)%Z] =>
      first [ replace (a =? b)%Z with true by (symmetry; apply Z.eqb_eq; lia)
            | replace (a =? b)%Z with false by (symmetry; apply Z.eqb_neq; lia) ]
  | |- context [(?a <? ?b)%Z] =>
      first [ replace (a <? b)%Z with true by (symmetry; apply Z.ltb_lt; lia)
            | replace (a <? b)%Z with false by (symmetry; apply Z.ltb_ge; lia) ]
  | |- context [(?a <=? ?b)%Z] =>
      first [ replace (a <=? b)%Z with true by (symmetry; apply Z.leb_le; lia)
            | replace (a <=? b)%Z with false by (symmetry; apply Z.leb_gt; lia) ]
  | |- context [(?a >? ?b)%Z] => rewrite (Z.gtb_ltb a b)
  end.

Lemma Qltb_true (a b : Q) : (a <? b) = true <-> a < b.
Proof.
  unfold Qltb. rewrite negb_true_iff.
  split; intros H.
  - apply Qnot_le_lt. intros Hle. apply Qle_bool_iff in Hle. congruence.
  - destruct (Qle_bool b a) eqn:E; [|reflexivity].
    apply Qle_bool_iff in E. exfalso. apply (Qlt_not_le _ _ H E).
Qed.

Lemma Qltb_false (a b : Q) : (a <? b) = false <-> b <= a.
Proof.
  unfold Qltb. rewrite negb_false_iff. apply Qle_bool_iff.
Qed.

Lemma Qgtb_true (a b : Q) : (a >? b) = true <-> b < a.
Proof. apply (Qltb_true b a). Qed.

Lemma Qgtb_false (a b : Q) : (a >? b) = false <-> a <= b.
Proof. apply (Qltb_false b a). Qed.

Lemma Qgeb_true (a b : Q) : (a >=? b) = true <-> b <= a.
Proof. apply Qle_bool_iff. Qed.

Lemma Qgeb_false (a b : Q) : (a >=? b) = false <-> a < b.
Proof.
  unfold Qgeb. split; intros H.
  - apply Qnot_le_lt. intros Hle. apply Qle_bool_iff in Hle. congruence.
  - destruct (Qle_bool b a) eqn:E; [|reflexivity].
    apply Qle_bool_iff in E. exfalso. apply (Qlt_not_le _ _ H E).
Qed.

(** Destruct the longitude tests of a goal into facts over [Q]. *)
Ltac qtests :=
  repeat match goal with
  | |- context [?a >? ?b] =>
      let E := fresh "E" in
      destruct (a >? b) eqn:E;
      [apply Qgtb_true in E | apply Qgtb_false in E]
  end.

Lemma inject_Z_succ (z : Z) : inject_Z (z + 1) == inject_Z z + 1.
Proof. rewrite inject_Z_plus. reflexivity. Qed.

Lemma inject_Z_of_nat_S (n : nat) :
  inject_Z (Z.of_nat (S n)) == inject_Z (Z.of_nat n) + 1.
Proof. rewrite Nat2Z.inj_succ. unfold Z.succ. apply inject_Z_succ. Qed.

Lemma inject_Z_bounds (z lo hi : Z) :
  (lo <= z <= hi)%Z -> inject_Z lo <= inject_Z z <= inject_Z hi.
Proof. intros [H1 H2]. split; rewrite <- Zle_Qle; assumption. Qed.

(** ** The normalisation loops *)

Section Loops.

(** With enough fuel the first loop leaves by its test. *)
Lemma whileBelow_spec (fuel : nat) : forall lon : Q,
  -180 <= lon + 360 * inject_Z (Z.of_nat fuel) ->
  -180 <= whileBelow fuel lon
  /\ (exists k : Z, (0 <= k)%Z /\ whileBelow fuel lon == lon + 360 * inject_Z k)
  /\ (lon < -180 -> whileBelow fuel lon < 180)
  /\ (-180 <= lon -> whileBelow fuel lon = lon).
Proof.
  induction fuel as [|n IH]; intros lon Hfuel.
  - simpl in *. change (inject_Z 0) with 0 in Hfuel.
    repeat split.
    + lra.
    + exists 0%Z. split; [lia|]. change (inject_Z 0) with 0. lra.
    + intros. lra.
  - rewrite inject_Z_of_nat_S in Hfuel. simpl.
    destruct (lon <? -180) eqn:E.
    + apply Qltb_true in E.
      destruct (IH (lon + 360)) as (H1 & (k & Hk & H2) & H3 & H4); [lra|].
      repeat split.
      * exact H1.
      * exists (k + 1)%Z. split; [lia|].
        rewrite H2, inject_Z_succ. lra.
      * intros _.
        destruct (Qlt_le_dec (lon + 360) (-180)) as [Hlt|Hge].
        -- apply H3, Hlt.
        -- rewrite (H4 Hge). lra.
      * intros. lra.
    + apply Qltb_false in E.
      repeat split.
      * exact E.
      * exists 0%Z. split; [lia|]. change (inject_Z 0) with 0. lra.
      * intros. lra.
  Qed.

Lemma whileAbove_spec (fuel : nat) : forall lon : Q,
  lon - 360 * inject_Z (Z.of_nat fuel) <= 180 ->
  whileAbove fuel lon <= 180
  /\ (exists k : Z, (0 <= k)%Z /\ whileAbove fuel lon == lon - 360 * inject_Z k)
  /\ (180 < lon -> -180 < whileAbove fuel lon)
  /\ (lon <= 180 -> whileAbove fuel lon = lon).
Proof.
  induction fuel as [|n IH]; intros lon Hfuel.
  - simpl in *. change (inject_Z 0) with 0 in Hfuel.
    repeat split.
    + lra.
    + exists 0%Z. split; [lia|]. change (inject_Z 0) with 0. lra.
    + intros. lra.
  - rewrite inject_Z_of_nat_S in Hfuel. simpl.
    destruct (lon >? 180) eqn:E.
    + apply Qgtb_true in E.
      destruct (IH (lon - 360)) as (H1 & (k & Hk & H2) & H3 & H4); [lra|].
      repeat split.
      * exact H1.
      * exists (k + 1)%Z. split; [lia|].
        rewrite H2, inject_Z_succ. lra.
      * intros _.
        destruct (Qlt_le_dec 180 (lon - 360)) as [Hlt|Hge].
        -- apply H3, Hlt.
        -- rewrite (H4 Hge). lra.
      * intros. lra.
    + apply Qgtb_false in E.
      repeat split.
      * exact E.
      * exists 0%Z. split; [lia|]. change (inject_Z 0) with 0. lra.
      * intros. lra.
Qed.

(** Fuel beyond what the loop needs changes nothing. *)
Lemma whileBelow_more_fuel (n : nat) : forall (lon : Q) (m : nat),
  -180 <= lon + 360 * inject_Z (Z.of_nat n) -> (n <= m)%nat ->
  whileBelow m lon = whileBelow n lon.
Proof.
  induction n as [|n IH]; intros lon m Hfuel Hle.
  - simpl in *. change (inject_Z 0) with 0 in Hfuel.
    destruct m as [|m]; [reflexivity|]. simpl.
    assert (E : (lon <? -180) = false) by (apply Qltb_false; lra).
    rewrite E. reflexivity.
  - destruct m as [|m]; [lia|].
    rewrite inject_Z_of_nat_S in Hfuel. simpl.
    destruct (lon <? -180); [|reflexivity].
    apply IH; [lra|lia].
Qed.

Lemma whileAbove_more_fuel (n : nat) : forall (lon : Q) (m : nat),
  lon - 360 * inject_Z (Z.of_nat n) <= 180 -> (n <= m)%nat ->
  whileAbove m lon = whileAbove n lon.
Proof.
  induction n as [|n IH]; intros lon m Hfuel Hle.
  - simpl in *. change (inject_Z 0) with 0 in Hfuel.
    destruct m as [|m]; [reflexivity|]. simpl.
    assert (E : (lon >? 180) = false) by (apply Qgtb_false; lra).
    rewrite E. reflexivity.
  - destruct m as [|m]; [lia|].
    rewrite inject_Z_of_nat_S in Hfuel. simpl.
    destruct (lon >? 180); [|reflexivity].
    apply IH; [lra|lia].
Qed.

(** [loopBound] is enough for either loop. *)
Lemma loopBound_enough (lon : Q) :
  Qabs lon < 360 * inject_Z (Z.of_nat (loopBound lon)).
Proof.
  unfold loopBound. rewrite inject_Z_of_nat_S.
  assert (Hnn : (0 <= Qfloor (Qabs lon / 360))%Z).
  { change 0%Z with (Qfloor 0). apply Qfloor_resp_le.
    pose proof (Qabs_nonneg lon). qinv. lra. }
  rewrite Z2Nat.id by exact Hnn.
  pose proof (Qlt_floor (Qabs lon / 360)) as Hlt.
  rewrite inject_Z_succ in Hlt. qinv. lra.
Qed.

Lemma loopBound_below (lon : Q) :
  -180 <= lon + 360 * inject_Z (Z.of_nat (loopBound lon)).
Proof.
  pose proof (loopBound_enough lon) as H.
  pose proof (Qle_Qabs (- lon)) as H'. rewrite Qabs_opp in H'. lra.
Qed.

Lemma loopBound_above (lon : Q) :
  lon - 360 * inject_Z (Z.of_nat (loopBound lon)) <= 180.
Proof.
  pose proof (loopBound_enough lon) as H.
  pose proof (Qle_Qabs lon) as H'. lra.
Qed.

End Loops.

(** [normalize] does not depend on the fuel, as long as there is enough:
    both loops terminate. *)
Lemma normalize_fuel_irrelevant (lon : Q) (fuel1 fuel2 : nat) :
  (loopBound lon <= fuel1)%nat ->
  (loopBound (whileBelow (loopBound lon) lon) <= fuel2)%nat ->
  normalizeWith fuel1 fuel2 lon = normalize lon.
Proof.
  intros H1 H2. unfold normalizeWith, normalize.
  rewrite (whileBelow_more_fuel (loopBound lon) lon fuel1
             (loopBound_below lon) H1).
  apply whileAbove_more_fuel; [apply loopBound_above | exact H2].
Qed.

Lemma normalize_range (lon : Q) : -180 <= normalize lon <= 180.
Proof.
  unfold normalize.
  destruct (whileBelow_spec _ lon (loopBound_below lon))
    as (Hlo & _ & _ & _).
  set (a := whileBelow (loopBound lon) lon) in *.
  destruct (whileAbove_spec _ a (loopBound_above a)) as (Hhi & _ & H3 & H4).
  split; [|exact Hhi].
  destruct (Qlt_le_dec 180 a) as [Hgt|Hle].
  - apply Qlt_le_weak, H3, Hgt.
  - rewrite (H4 Hle). exact Hlo.
Qed.

Lemma normalize_congruent (lon : Q) :
  exists k : Z, normalize lon == lon + 360 * inject_Z k.
Proof.
  unfold normalize.
  destruct (whileBelow_spec _ lon (loopBound_below lon))
    as (_ & (k & _ & Hk) & _ & _).
  set (a := whileBelow (loopBound lon) lon) in *.
  destruct (whileAbove_spec _ a (loopBound_above a))
    as (_ & (j & _ & Hj) & _ & _).
  exists (k - j)%Z.
  rewrite Hj, Hk. unfold Z.sub. rewrite inject_Z_plus, inject_Z_opp. lra.
Qed.

(** Inside the range no loop body runs. *)
Lemma normalize_fixed (lon : Q) :
  -180 <= lon <= 180 -> normalize lon = lon.
Proof.
  intros [Hlo Hhi]. unfold normalize.
  destruct (whileBelow_spec _ lon (loopBound_below lon)) as (_ & _ & _ & H4).
  rewrite (H4 Hlo).
  destruct (whileAbove_spec _ lon (loopBound_above lon)) as (_ & _ & _ & H4').
  exact (H4' Hhi).
Qed.

(** ** The longitude normaliser *)

(** C8.  For every longitude [lon], [normalize lon] lies in [-180, 180] and
    differs from [lon] by a whole multiple of 360; [normalize 190 == -170],
    [normalize (-190) == 170], [normalize 540 == 180] (the loops leave 180
    alone, so of the two admissible values the code yields 180) and
    [normalize 0 == 0]. *)
Theorem normalize_range_congruent :
  (forall lon : Q,
      -180 <= normalize lon <= 180
      /\ exists k : Z, normalize lon == lon + 360 * inject_Z k)
  /\ normalize 190 == -170
  /\ normalize (-190) == 170
  /\ normalize 540 == 180
  /\ normalize 0 == 0.
Proof.
  split; [|repeat split; vm_compute; reflexivity].
  intros lon. split; [apply normalize_range | apply normalize_congruent].
Qed.

(** C10.  [normalize] is idempotent: normalising a second time returns the
    very same number. *)
Theorem normalize_idempotent (x : Q) :
  normalize (normalize x) = normalize x.
Proof. apply normalize_fixed, normalize_range. Qed.

(** ** The solar-midnight locator *)

(** C6.  [solarMidnightLon] is the normalisation of
    [-(hour + minute/60 + second/3600) * 15]: it is what the two loops make
    of that number, it lies in [-180, 180] and is congruent to it modulo
    360.  On any date it is 0 at 00:00:00, -90 at 06:00:00, -180 at 12:00:00
    (one of the two admissible signs) and 90 at 18:00:00. *)
Theorem solarMidnightLon_normalizes_hours :
  (forall t : DateTime,
      let lon := - (inject_Z (hour t) + inject_Z (minute t) / 60
                    + inject_Z (second t) / 3600) * 15 in
      solarMidnightLon t = normalize lon
      /\ -180 <= solarMidnightLon t <= 180
      /\ exists k : Z, solarMidnightLon t == lon + 360 * inject_Z k)
  /\ (forall y mo d ms : Z,
         solarMidnightLon (mkDateTime y mo d 0 0 0 ms) == 0
         /\ solarMidnightLon (mkDateTime y mo d 6 0 0 ms) == -90
         /\ (solarMidnightLon (mkDateTime y mo d 12 0 0 ms) == 180
             \/ solarMidnightLon (mkDateTime y mo d 12 0 0 ms) == -180)
         /\ solarMidnightLon (mkDateTime y mo d 18 0 0 ms) == 90).
Proof.
  split.
  - intros t lon. unfold solarMidnightLon. fold lon.
    split; [reflexivity|].
    split; [apply normalize_range | apply normalize_congruent].
  - intros y mo d ms.
    split; [vm_compute; reflexivity|].
    split; [vm_compute; reflexivity|].
    split; [right; vm_compute; reflexivity | vm_compute; reflexivity].
Qed.

(** ** The phase flags *)

(** Whole hours decide the comparison of [hour + minute / 60] with 12. *)
Lemma hourMinute_ltb_12 (h m : Z) :
  (0 <= m <= 59)%Z ->
  (inject_Z h + inject_Z m / 60 <? 12) = (h <? 12)%Z.
Proof.
  intros Hm. apply inject_Z_bounds in Hm.
  change (inject_Z 0) with 0 in Hm. change (inject_Z 59) with 59 in Hm.
  destruct (Z.ltb_spec h 12) as [Hh|Hh].
  - apply Qltb_true.
    assert (inject_Z h <= inject_Z 11) by (rewrite <- Zle_Qle; lia).
    change (inject_Z 11) with 11 in *. qinv. lra.
  - apply Qltb_false.
    assert (inject_Z 12 <= inject_Z h) by (rewrite <- Zle_Qle; lia).
    change (inject_Z 12) with 12 in *. qinv. lra.
Qed.

Lemma hourMinute_geb_12 (h m : Z) :
  (0 <= m <= 59)%Z ->
  (inject_Z h + inject_Z m / 60 >=? 12) = (12 <=? h)%Z.
Proof.
  intros Hm.
  pose proof (hourMinute_ltb_12 h m Hm) as H.
  unfold Qltb in H. unfold Qgeb.
  rewrite Z.leb_antisym, <- H, negb_involutive. reflexivity.
Qed.

(** The flags of a valid instant, by integer tests only. *)
Lemma flags_integer (t : DateTime) :
  (0 <= minute t <= 59)%Z ->
  inTransition t
  = (((month t =? 12) && (day t =? 31) && (12 <=? hour t))
     || ((month t =? 1) && (day t =? 1) && (hour t <? 12)))%Z%bool
  /\ transitionComplete t
     = (((month t =? 1) && (day t =? 1) && (12 <=? hour t))
        || ((month t =? 1) && (day t >? 1))
        || ((month t >? 1) && (month t <? 12)))%Z%bool
  /\ beforeTransition t
     = (((month t =? 12) && (day t =? 31) && (hour t <? 12))
        || ((month t =? 12) && (day t <? 31)))%Z%bool.
Proof.
  intros Hm. unfold inTransition, transitionComplete, beforeTransition.
  rewrite (hourMinute_ltb_12 _ _ Hm), (hourMinute_geb_12 _ _ Hm).
  repeat split; reflexivity.
Qed.

Lemma valid_phase_case (t : DateTime) :
  validDateTime t -> exists p, PhaseCase t p.
Proof.
  unfold validDateTime, daysInMonth. intros (Hmo & Hd & Hh & _).
  destruct (Z.eq_dec (month t) 12) as [E12|N12].
  - rewrite E12 in Hd. simpl in Hd.
    destruct (Z.eq_dec (day t) 31) as [E31|N31].
    + destruct (Z_lt_le_dec (hour t) 12).
      * exists Before. constructor. lia.
      * exists During. constructor. lia.
    + exists Before. constructor. lia.
  - destruct (Z.eq_dec (month t) 1) as [E1|N1].
    + destruct (Z.eq_dec (day t) 1) as [Ed|Nd].
      * destruct (Z_lt_le_dec (hour t) 12).
        -- exists During. constructor. lia.
        -- exists Complete. constructor. lia.
      * exists Complete. constructor. lia.
    + exists Complete. constructor. lia.
Qed.

Lemma phase_case_flags (t : DateTime) (p : Phase) :
  (0 <= minute t <= 59)%Z -> PhaseCase t p ->
  beforeTransition t = match p with Before => true | _ => false end
  /\ inTransition t = match p with During => true | _ => false end
  /\ transitionComplete t = match p with Complete => true | _ => false end.
Proof.
  intros Hm Hc.
  destruct (flags_integer t Hm) as (-> & -> & ->).
  destruct Hc as [H|H|H].
  - destruct H as [Hmo [Hd|[Hd Hh]]]; ztest; simpl; ztest;
      repeat split; reflexivity.
  - destruct H as [(Hmo & Hd & Hh)|(Hmo & Hd & Hh)]; ztest; simpl; ztest;
      repeat split; reflexivity.
  - destruct H as [[Hmo [Hd|[Hd Hh]]]|Hmo]; ztest; simpl; ztest;
      repeat split; reflexivity.
Qed.

Lemma phase_case_classify (t : DateTime) (p : Phase) :
  (0 <= minute t <= 59)%Z -> PhaseCase t p -> classify t = Some p.
Proof.
  intros Hm Hc. unfold classify.
  destruct (phase_case_flags t p Hm Hc) as (-> & -> & ->).
  destruct p; reflexivity.
Qed.

(** ** Calendar arithmetic *)

Lemma div_pred (y k : Z) :
  (0 < k)%Z ->
  (y / k = (y - 1) / k + (if y mod k =? 0 then 1 else 0))%Z.
Proof.
  intros Hk.
  destruct (Z.eqb_spec (y mod k) 0); Z.div_mod_to_equations; nia.
Qed.

Lemma isLeapYear_count (y : Z) :
  ((if isLeapYear y then 1 else 0)
   = (if y mod 4 =? 0 then 1 else 0) - (if y mod 100 =? 0 then 1 else 0)
     + (if y mod 400 =? 0 then 1 else 0))%Z.
Proof.
  unfold isLeapYear.
  destruct (Z.eqb_spec (y mod 4) 0), (Z.eqb_spec (y mod 100) 0),
    (Z.eqb_spec (y mod 400) 0); cbn [andb orb negb]; try reflexivity;
    exfalso; Z.div_mod_to_equations; lia.
Qed.

Lemma daysBeforeYear_succ (y : Z) :
  (daysBeforeYear (y + 1)
   = daysBeforeYear y + 365 + (if isLeapYear y then 1 else 0))%Z.
Proof.
  unfold daysBeforeYear. rewrite isLeapYear_count.
  replace (y + 1 - 1)%Z with y by lia.
  rewrite (div_pred y 4), (div_pred y 100), (div_pred y 400) by lia.
  lia.
Qed.

(** January 1 follows December 31 of the year before. *)
Lemma jan1_after_dec31 (y : Z) :
  (daysFromEpoch y 1 1 = daysFromEpoch (y - 1) 12 31 + 1)%Z.
Proof.
  unfold daysFromEpoch. simpl.
  pose proof (daysBeforeYear_succ (y - 1)) as H.
  replace (y - 1 + 1)%Z with y in H by lia.
  rewrite andb_true_r, andb_false_r.
  change (daysBeforeMonth 1) with 0%Z.
  change (daysBeforeMonth 12) with 334%Z. lia.
Qed.

Lemma wholeSeconds_fields (t : DateTime) :
  (0 <= millisecond t <= 999)%Z ->
  wholeSeconds t
  = (((daysFromEpoch (year t) (month t) (day t) * 24 + hour t) * 60
      + minute t) * 60 + second t)%Z.
Proof.
  intros Hms. unfold wholeSeconds, toMillis.
  symmetry. apply (Z.div_unique_pos _ 1000 _ (millisecond t)); lia.
Qed.

(** ** Coverage *)

Lemma coverage_before (t : DateTime) :
  beforeTransition t = true -> coverage t = 0.
Proof. intros H. unfold coverage. rewrite H. reflexivity. Qed.

Lemma coverage_complete (t : DateTime) :
  beforeTransition t = false -> transitionComplete t = true ->
  coverage t = 100.
Proof. intros H1 H2. unfold coverage. rewrite H1, H2. reflexivity. Qed.

(** Within the window the coverage is linear in the elapsed seconds. *)
Lemma coverage_during (t : DateTime) :
  validDateTime t -> PhaseCase t During ->
  coverage t == hoursSinceWindowStart t / 24 * 100
  /\ 0 <= coverage t < 100.
Proof.
  intros Hv Hc.
  destruct Hv as (_ & _ & Hh & Hmi & Hs & Hms).
  destruct (phase_case_flags t During Hmi Hc) as (Hb & _ & Hcpl).
  unfold coverage, hoursSinceWindowStart. rewrite Hb, Hcpl.
  rewrite (wholeSeconds_fields t Hms).
  rewrite (wholeSeconds_fields (windowStart t)) by (simpl; lia).
  unfold windowStart, previousYear.
  pose proof (inject_Z_bounds _ _ _ Hh) as Qh.
  pose proof (inject_Z_bounds _ _ _ Hmi) as Qmi.
  pose proof (inject_Z_bounds _ _ _ Hs) as Qs.
  change (inject_Z 0) with 0 in *. change (inject_Z 23) with 23 in *.
  change (inject_Z 59) with 59 in *.
  inversion Hc as [| [(Hmo & Hd & Hh12) | (Hmo & Hd & Hh12)] |].
  - rewrite Hmo, Hd. simpl.
    assert (Q12 : 12 <= inject_Z (hour t)).
    { change 12 with (inject_Z 12). rewrite <- Zle_Qle. exact Hh12. }
    replace ((((daysFromEpoch (year t) 12 31 * 24 + hour t) * 60 + minute t)
              * 60 + second t)
             - (((daysFromEpoch (year t) 12 31 * 24 + 12) * 60 + 0) * 60 + 0))%Z
      with (hour t * 3600 + minute t * 60 + second t - 43200)%Z by lia.
    unfold Z.sub.
    rewrite !inject_Z_plus, !inject_Z_mult, inject_Z_opp.
    change (inject_Z 3600) with 3600. change (inject_Z 60) with 60.
    change (inject_Z 43200) with 43200.
    qinv. split; [|split]; lra.
  - rewrite Hmo, Hd. simpl.
    assert (Q11 : inject_Z (hour t) <= 11).
    { change 11 with (inject_Z 11). rewrite <- Zle_Qle. lia. }
    rewrite jan1_after_dec31.
    replace ((((((daysFromEpoch (year t - 1) 12 31 + 1) * 24 + hour t) * 60
               + minute t) * 60 + second t))
             - (((daysFromEpoch (year t - 1) 12 31 * 24 + 12) * 60 + 0) * 60
                + 0))%Z
      with (hour t * 3600 + minute t * 60 + second t + 43200)%Z by lia.
    rewrite !inject_Z_plus, !inject_Z_mult.
    change (inject_Z 3600) with 3600. change (inject_Z 60) with 60.
    change (inject_Z 43200) with 43200.
    qinv. split; [|split]; lra.
Qed.

Lemma classify_case (t : DateTime) (p : Phase) :
  validDateTime t -> classify t = Some p -> PhaseCase t p.
Proof.
  intros Hv Hcl.
  destruct (valid_phase_case t Hv) as [q Hq].
  assert (Hm : (0 <= minute t <= 59)%Z) by (destruct Hv; tauto).
  rewrite (phase_case_classify t q Hm Hq) in Hcl.
  injection Hcl as <-. exact Hq.
Qed.

(** ** The phase classifier *)

(** C9.  At every valid UTC instant exactly one of the three flags
    [beforeTransition], [inTransition], [transitionComplete] is set, so
    [classify] yields a phase, and the coverage lies in [0, 100]. *)
Theorem classify_one_phase_coverage_bounded (t : DateTime) :
  validDateTime t ->
  (exists p : Phase,
      classify t = Some p
      /\ beforeTransition t = match p with Before => true | _ => false end
      /\ inTransition t = match p with During => true | _ => false end
      /\ transitionComplete t = match p with Complete => true | _ => false end)
  /\ 0 <= coverage t <= 100.
Proof.
  intros Hv.
  assert (Hm : (0 <= minute t <= 59)%Z) by (destruct Hv; tauto).
  destruct (valid_phase_case t Hv) as [p Hp].
  pose proof (phase_case_flags t p Hm Hp) as Hf.
  split.
  - exists p. split; [apply phase_case_classify; assumption | exact Hf].
  - destruct Hf as (Hb & Hi & Hc). destruct p.
    + rewrite (coverage_before t Hb). lra.
    + destruct (coverage_during t Hv Hp) as (_ & H0 & H100). lra.
    + rewrite (coverage_complete t Hb Hc). lra.
Qed.

Lemma classify_one_phase_coverage_bounded_witness :
  validDateTime (mkDateTime 2024 12 31 15 0 0 0)
  /\ classify (mkDateTime 2024 12 31 15 0 0 0) = Some During
  /\ 0 <= coverage (mkDateTime 2024 12 31 15 0 0 0) <= 100.
Proof.
  assert (Hv : validDateTime (mkDateTime 2024 12 31 15 0 0 0))
    by (repeat split; vm_compute; discriminate).
  split; [exact Hv|].
  split; [reflexivity|].
  exact (proj2 (classify_one_phase_coverage_bounded _ Hv)).
Defined.

(** C4, as stated, fails off the whole second: [coverage] does not read
    the millisecond field, so at 2025-01-01 03:30:36.250 UTC, inside the
    window, it is not the elapsed hours over 24 times 100. *)
Lemma coverage_ignores_milliseconds :
  validDateTime (mkDateTime 2025 1 1 3 30 36 250)
  /\ classify (mkDateTime 2025 1 1 3 30 36 250) = Some During
  /\ ~ coverage (mkDateTime 2025 1 1 3 30 36 250)
       == exactHoursSinceWindowStart (mkDateTime 2025 1 1 3 30 36 250)
          / 24 * 100.
Proof.
  split; [repeat split; vm_compute; discriminate|].
  split; [reflexivity|].
  intros H. vm_compute in H. discriminate.
Qed.

(** C4, amended.  On any year: December 31 11:59:59 is Before with
    coverage 0, December 31 12:00:00 is During with coverage 0, January 1
    00:00:00 is During with coverage 50, January 1 12:00:00 is Complete with
    coverage 100, and every instant of June 15 is Complete with coverage
    100.  Within the window the coverage is the hours elapsed since the
    window start, counted in the whole seconds of the hour, minute and
    second fields (the millisecond field does not count), divided by 24,
    times 100. *)
Theorem classify_boundaries_linear_coverage :
  (forall y ms : Z,
      (classify (mkDateTime y 12 31 11 59 59 ms) = Some Before
       /\ coverage (mkDateTime y 12 31 11 59 59 ms) == 0)
      /\ (classify (mkDateTime y 12 31 12 0 0 ms) = Some During
          /\ coverage (mkDateTime y 12 31 12 0 0 ms) == 0)
      /\ (classify (mkDateTime y 1 1 0 0 0 ms) = Some During
          /\ coverage (mkDateTime y 1 1 0 0 0 ms) == 50)
      /\ (classify (mkDateTime y 1 1 12 0 0 ms) = Some Complete
          /\ coverage (mkDateTime y 1 1 12 0 0 ms) == 100))
  /\ (forall y h mi s ms : Z,
         classify (mkDateTime y 6 15 h mi s ms) = Some Complete
         /\ coverage (mkDateTime y 6 15 h mi s ms) == 100)
  /\ (forall t : DateTime,
         validDateTime t -> classify t = Some During ->
         coverage t == hoursSinceWindowStart t / 24 * 100).
Proof.
  split; [|split].
  - intros y ms. repeat split; vm_compute; reflexivity.
  - intros y h mi s ms. split; vm_compute; reflexivity.
  - intros t Hv Hcl.
    exact (proj1 (coverage_during t Hv (classify_case t During Hv Hcl))).
Qed.

Lemma classify_boundaries_linear_coverage_witness :
  validDateTime (mkDateTime 2025 1 1 3 30 36 250)
  /\ classify (mkDateTime 2025 1 1 3 30 36 250) = Some During
  /\ hoursSinceWindowStart (mkDateTime 2025 1 1 3 30 36 250) == 15.51
  /\ coverage (mkDateTime 2025 1 1 3 30 36 250)
     == hoursSinceWindowStart (mkDateTime 2025 1 1 3 30 36 250) / 24 * 100.
Proof.
  assert (Hv : validDateTime (mkDateTime 2025 1 1 3 30 36 250))
    by (repeat split; vm_compute; discriminate).
  split; [exact Hv|].
  split; [reflexivity|].
  split; [vm_compute; reflexivity|].
  exact (proj2 (proj2 classify_boundaries_linear_coverage) _ Hv eq_refl).
Defined.

(** ** The countdown *)

Lemma shiftMillis_split (ms : Z) :
  (ms = ms / 86400000 * 86400000 + ms mod 86400000 / 3600000 * 3600000
        + ms mod 3600000 / 60000 * 60000 + ms mod 60000)%Z.
Proof. Z.div_mod_to_equations. lia. Qed.

(** The four units of [shiftMillis] add up to the milliseconds split. *)
Lemma shiftMillis_total (ms : Z) :
  durationToMillis (shiftMillis ms) == inject_Z ms.
Proof.
  unfold durationToMillis, shiftMillis. simpl.
  pose proof (shiftMillis_split ms) as Hz.
  remember (ms / 86400000)%Z as a.
  remember (ms mod 86400000 / 3600000)%Z as b.
  remember (ms mod 3600000 / 60000)%Z as c.
  remember (ms mod 60000)%Z as r.
  rewrite Hz, !inject_Z_plus, !inject_Z_mult.
  change (inject_Z 86400000) with 86400000.
  change (inject_Z 3600000) with 3600000.
  change (inject_Z 60000) with 60000.
  qinv. lra.
Qed.

Lemma Qfloor_millis (r : Z) : Qfloor (inject_Z r / 1000) = (r / 1000)%Z.
Proof. change 1000 with (inject_Z 1000). symmetry. apply Zdiv_Qdiv. Qed.

(** Before the wave, on December 1 to 31, the wave start of the instant's
    own year lies ahead. *)
Lemma before_millis_ahead (t : DateTime) :
  validDateTime t -> PhaseCase t Before ->
  (toMillis t < toMillis (utc (year t) 12 31 12 0 0))%Z.
Proof.
  intros (_ & Hd & Hh & Hmi & Hs & Hms) Hc.
  inversion Hc as [(Hmo & Hday) | |].
  unfold toMillis, daysFromEpoch, utc.
  cbn [year month day hour minute second millisecond]. rewrite Hmo. lia.
Qed.

Lemma countdown_ahead (t : DateTime) :
  beforeTransition t = true ->
  (toMillis t < toMillis (utc (year t) 12 31 12 0 0))%Z ->
  let ms := (toMillis (utc (year t) 12 31 12 0 0) - toMillis t)%Z in
  exists total : Q,
    total == inject_Z ms
    /\ countdown t
       = Some (mkCountdown (ms / 86400000) (ms mod 86400000 / 3600000)
                           (ms mod 3600000 / 60000) (ms mod 60000 / 1000)
                           total).
Proof.
  intros Hb Hlt ms. unfold countdown. rewrite Hb. simpl negb. cbv iota.
  unfold diff.
  replace (toMillis t >? toMillis (utc (year t) 12 31 12 0 0))%Z
    with false by (symmetry; rewrite Z.gtb_ltb; apply Z.ltb_ge; lia).
  fold ms.
  exists (durationToMillis (shiftMillis ms)).
  split; [apply shiftMillis_total|].
  assert (Hpos : (durationToMillis (shiftMillis ms) <=? 0) = false).
  { destruct (durationToMillis (shiftMillis ms) <=? 0) eqn:E; [|reflexivity].
    apply Qle_bool_iff in E. rewrite shiftMillis_total in E.
    change 0 with (inject_Z 0) in E. rewrite <- Zle_Qle in E.
    unfold ms in E. lia. }
  rewrite Hpos. unfold shiftMillis. cbn [days hours minutes seconds].
  rewrite !Qfloor_Z, Qfloor_millis. reflexivity.
Qed.

Lemma shiftMillis_units (ms : Z) :
  (0 <= ms)%Z ->
  (0 <= ms / 86400000
   /\ 0 <= ms mod 86400000 / 3600000 < 24
   /\ 0 <= ms mod 3600000 / 60000 < 60
   /\ 0 <= ms mod 60000 / 1000 < 60)%Z.
Proof.
  intros H.
  pose proof (Z.mod_pos_bound ms 86400000 eq_refl).
  pose proof (Z.mod_pos_bound ms 3600000 eq_refl).
  pose proof (Z.mod_pos_bound ms 60000 eq_refl).
  split; [apply Z.div_pos; lia|].
  split; [split; [apply Z.div_pos; lia | apply Z.div_lt_upper_bound; lia]|].
  split; [split; [apply Z.div_pos; lia | apply Z.div_lt_upper_bound; lia]|].
  split; [apply Z.div_pos; lia | apply Z.div_lt_upper_bound; lia].
Qed.

Lemma shiftMillis_whole (ms : Z) :
  let whole :=
    ((((ms / 86400000 * 24 + ms mod 86400000 / 3600000) * 60
       + ms mod 3600000 / 60000) * 60 + ms mod 60000 / 1000) * 1000)%Z in
  (whole <= ms < whole + 1000)%Z.
Proof.
  intros whole. unfold whole.
  pose proof (shiftMillis_split ms) as Hz.
  pose proof (Z.div_mod (ms mod 60000) 1000 ltac:(lia)) as Hr.
  pose proof (Z.mod_pos_bound (ms mod 60000) 1000 eq_refl) as Hb.
  remember (ms / 86400000)%Z as a.
  remember (ms mod 86400000 / 3600000)%Z as b.
  remember (ms mod 3600000 / 60000)%Z as c.
  remember (ms mod 60000 / 1000)%Z as s.
  remember (ms mod 60000)%Z as r.
  remember (r mod 1000)%Z as r'.
  lia.
Qed.

(** C7.  Whenever [classify] yields Before, the countdown is defined; its
    total is the (positive) number of milliseconds from the instant to
    December 31 12:00:00 UTC of the instant's own year, and its days, hours,
    minutes and seconds are that duration split over the units, seconds
    rounded down.  At December 30 12:00:00 UTC it is exactly 1 day, 0 hours,
    0 minutes, 0 seconds. *)
Theorem countdown_before_wave_start :
  (forall t : DateTime,
      validDateTime t -> classify t = Some Before ->
      exists c : Countdown,
        countdown t = Some c
        /\ cd_total c
           == inject_Z (toMillis (utc (year t) 12 31 12 0 0) - toMillis t)
        /\ 0 < cd_total c
        /\ (0 <= cd_days c /\ 0 <= cd_hours c < 24 /\ 0 <= cd_minutes c < 60
            /\ 0 <= cd_seconds c < 60)%Z
        /\ (let whole :=
              ((((cd_days c * 24 + cd_hours c) * 60 + cd_minutes c) * 60
                + cd_seconds c) * 1000)%Z in
            inject_Z whole <= cd_total c < inject_Z (whole + 1000)))
  /\ (forall y : Z,
         exists c : Countdown,
           countdown (mkDateTime y 12 30 12 0 0 0) = Some c
           /\ cd_days c = 1%Z /\ cd_hours c = 0%Z /\ cd_minutes c = 0%Z
           /\ cd_seconds c = 0%Z /\ cd_total c == 86400000).
Proof.
  split.
  - intros t Hv Hcl.
    pose proof (classify_case t Before Hv Hcl) as Hc.
    pose proof (before_millis_ahead t Hv Hc) as Hlt.
    assert (Hm : (0 <= minute t <= 59)%Z) by (destruct Hv; tauto).
    destruct (phase_case_flags t Before Hm Hc) as (Hb & _).
    destruct (countdown_ahead t Hb Hlt) as (total & Htot & Hcd).
    set (ms := (toMillis (utc (year t) 12 31 12 0 0) - toMillis t)%Z) in *.
    assert (Hms : (0 < ms)%Z) by (unfold ms; lia).
    eexists. split; [exact Hcd|].
    cbn [cd_days cd_hours cd_minutes cd_seconds cd_total].
    split; [exact Htot|].
    split.
    { rewrite Htot. change 0 with (inject_Z 0). rewrite <- Zlt_Qlt. exact Hms. }
    split.
    { apply shiftMillis_units. lia. }
    rewrite Htot. rewrite <- Zle_Qle, <- Zlt_Qlt.
    apply shiftMillis_whole.
  - intros y.
    set (t := mkDateTime y 12 30 12 0 0 0).
    assert (Hb : beforeTransition t = true) by reflexivity.
    assert (Hms : (toMillis (utc (year t) 12 31 12 0 0) - toMillis t
                   = 86400000)%Z).
    { unfold toMillis, daysFromEpoch, utc, t.
      cbn [year month day hour minute second millisecond]. lia. }
    assert (Hlt : (toMillis t < toMillis (utc (year t) 12 31 12 0 0))%Z)
      by lia.
    destruct (countdown_ahead t Hb Hlt) as (total & Htot & Hcd).
    rewrite Hms in Htot, Hcd.
    eexists. split; [exact Hcd|].
    cbn [cd_days cd_hours cd_minutes cd_seconds cd_total].
    repeat split; try reflexivity. exact Htot.
Qed.

Lemma countdown_before_wave_start_witness :
  validDateTime (mkDateTime 2024 12 1 0 0 1 250)
  /\ classify (mkDateTime 2024 12 1 0 0 1 250) = Some Before
  /\ exists c : Countdown,
       countdown (mkDateTime 2024 12 1 0 0 1 250) = Some c
       /\ cd_total c == 2635198750
       /\ (cd_days c = 30 /\ cd_hours c = 11 /\ cd_minutes c = 59
           /\ cd_seconds c = 58)%Z.
Proof.
  assert (Hv : validDateTime (mkDateTime 2024 12 1 0 0 1 250))
    by (repeat split; vm_compute; discriminate).
  split; [exact Hv|].
  split; [reflexivity|].
  destruct (proj1 countdown_before_wave_start _ Hv eq_refl)
    as (c & Hc & _).
  exists c. split; [exact Hc|].
  vm_compute in Hc. injection Hc as <-.
  split; [vm_compute; reflexivity|]. repeat split.
Defined.

(** ** The new-year membership test *)

Lemma Qgtb_comp (a a' b b' : Q) :
  a == a' -> b == b' -> (a >? b) = (a' >? b').
Proof. intros Ha Hb. unfold Qgtb. rewrite Ha, Hb. reflexivity. Qed.

Lemma Qltb_comp (a a' b b' : Q) :
  a == a' -> b == b' -> (a <? b) = (a' <? b').
Proof. intros Ha Hb. unfold Qltb. rewrite Ha, Hb. reflexivity. Qed.

(** During the transition the test reads its argument through [wrapOnce]. *)
Lemma isNewYear_during (m lon : Q) :
  isNewYearIn During m lon
  = if m <=? 0 then wrapOnce lon >? m
    else (wrapOnce lon >? m) || (wrapOnce lon <? -180 + (180 - m)).
Proof. reflexivity. Qed.

Lemma isNewYear_during_comp (m lon lon' : Q) :
  wrapOnce lon == wrapOnce lon' ->
  isNewYearIn During m lon = isNewYearIn During m lon'.
Proof.
  intros H. rewrite !isNewYear_during.
  rewrite (Qgtb_comp _ _ m m H (Qeq_refl m)).
  rewrite (Qltb_comp _ _ (-180 + (180 - m)) (-180 + (180 - m)) H
             (Qeq_refl _)).
  reflexivity.
Qed.

(** What the test computes for a longitude already in range: with the
    midnight line in the western hemisphere, east of the line; with the line
    in the eastern hemisphere, east of the line or west of its mirror
    image. *)
Lemma isNewYear_during_in_range (m lon : Q) :
  -180 <= lon <= 180 ->
  (isNewYearIn During m lon = true
   <-> (m < lon \/ (0 < m /\ lon < - m))).
Proof.
  intros [Hlo Hhi]. rewrite isNewYear_during. unfold wrapOnce.
  assert (E1 : (lon >? 180) = false) by (apply Qgtb_false; exact Hhi).
  assert (E2 : (lon <? -180) = false) by (apply Qltb_false; exact Hlo).
  rewrite E1, E2.
  destruct (m <=? 0) eqn:Em.
  - apply Qle_bool_iff in Em. rewrite Qgtb_true.
    split; [intros H; left; exact H | intros [H|[H _]]; [exact H | lra]].
  - assert (Hm : 0 < m).
    { apply Qnot_le_lt. intros Hle. apply Qle_bool_iff in Hle. congruence. }
    rewrite orb_true_iff, Qgtb_true, Qltb_true.
    split; (intros [H|H]; [left; exact H | right]).
    + split; [exact Hm | lra].
    + destruct H as [_ H]. lra.
Qed.

Lemma wrapOnce_shift (lon : Q) (k : Z) :
  -540 < lon < 540 -> -540 < lon + 360 * inject_Z k < 540 ->
  ~ lon == 180 -> ~ lon == -180 ->
  wrapOnce (lon + 360 * inject_Z k) == wrapOnce lon.
Proof.
  intros [Hl1 Hl2] [Hs1 Hs2] N1 N2.
  assert (Hk : (-3 < k < 3)%Z).
  { split.
    - destruct (Z_le_gt_dec k (-3)) as [H|H]; [|lia].
      assert (inject_Z k <= inject_Z (-3)) by (rewrite <- Zle_Qle; exact H).
      change (inject_Z (-3)) with (-3) in *. lra.
    - destruct (Z_le_gt_dec 3 k) as [H|H]; [|lia].
      assert (inject_Z 3 <= inject_Z k) by (rewrite <- Zle_Qle; exact H).
      change (inject_Z 3) with 3 in *. lra. }
  assert (Hcases : (k = -2 \/ k = -1 \/ k = 0 \/ k = 1 \/ k = 2)%Z) by lia.
  assert (T1 : lon < 180 \/ 180 < lon).
  { destruct (Qlt_le_dec lon 180) as [H|H]; [left; exact H|].
    right. apply Qle_lt_or_eq in H. destruct H as [H|H]; [exact H|].
    exfalso. apply N1. symmetry. exact H. }
  assert (T2 : lon < -180 \/ -180 < lon).
  { destruct (Qlt_le_dec lon (-180)) as [H|H]; [left; exact H|].
    right. apply Qle_lt_or_eq in H. destruct H as [H|H]; [exact H|].
    exfalso. apply N2. symmetry. exact H. }
  unfold wrapOnce.
  destruct Hcases as [->|[->|[->|[->| ->]]]];
    [change (inject_Z (-2)) with (-2) in * |
     change (inject_Z (-1)) with (-1) in * |
     change (inject_Z 0) with 0 in * |
     change (inject_Z 1) with 1 in * |
     change (inject_Z 2) with 2 in * ];
    repeat match goal with
    | |- context [?a >? ?b] =>
        let E := fresh "E" in
        destruct (a >? b) eqn:E;
        [apply Qgtb_true in E | apply Qgtb_false in E]
    | |- context [?a <? ?b] =>
        let E := fresh "E" in
        destruct (a <? b) eqn:E;
        [apply Qltb_true in E | apply Qltb_false in E]
    end;
    destruct T1, T2; lra.
Qed.

(** C1.  The claim reads: during the transition [isNewYear] is true exactly
    when the normalised longitude is greater than the midnight longitude, in
    either hemisphere.  The code departs from it in the eastern-hemisphere
    branch: at 2024-12-31 14:00:00 UTC the midnight line is at 150 and the
    phase is During, longitude -170 is already normalised and is not greater
    than 150, yet [isNewYear] answers true for it (it is less than -150,
    the second disjunct of the reachable [return]). *)
Theorem isNewYear_east_branch_mirror :
  classify (mkDateTime 2024 12 31 14 0 0 0) = Some During
  /\ solarMidnightLon (mkDateTime 2024 12 31 14 0 0 0) == 150
  /\ normalize (-170) == -170
  /\ (normalize (-170) >? 150) = false
  /\ isNewYearIn During 150 (-170) = true
  /\ isNewYearAt (mkDateTime 2024 12 31 14 0 0 0) (-170) = true.
Proof. repeat split; vm_compute; reflexivity. Qed.

(** C5, as stated, fails in two ways: 180 and 180 - 360 = -180 are both left
    alone by the wrap and fall on different sides of a midnight line at 0;
    and 550 = -170 + 2 * 360 is wrapped once only, to 190, which is east of
    a line at -30 while -170 is not. *)
Lemma isNewYear_shift_360_differs :
  isNewYearIn During 0 (180 + 360 * inject_Z (-1))
  <> isNewYearIn During 0 180
  /\ isNewYearIn During (-30) (-170 + 360 * inject_Z 2)
     <> isNewYearIn During (-30) (-170).
Proof. split; vm_compute; discriminate. Qed.

(** C5, amended.  During the transition [isNewYear] wraps its argument once
    by 360, so for every longitude [lon] strictly between -540 and 540 other
    than 180 and -180, every integer [k] with [lon + 360 * k] strictly
    between -540 and 540, and every midnight longitude [m], the answers for
    [lon + 360 * k] and for [lon] agree. *)
Theorem isNewYear_single_wrap_periodic (lon m : Q) (k : Z) :
  -540 < lon < 540 ->
  -540 < lon + 360 * inject_Z k < 540 ->
  ~ lon == 180 -> ~ lon == -180 ->
  isNewYearIn During m (lon + 360 * inject_Z k) = isNewYearIn During m lon.
Proof.
  intros Hl Hs N1 N2.
  apply isNewYear_during_comp, wrapOnce_shift; assumption.
Qed.

Lemma isNewYear_single_wrap_periodic_witness :
  isNewYearIn During (-30) (170 + 360 * inject_Z (-1))
  = isNewYearIn During (-30) 170
  /\ isNewYearIn During (-30) 170 = true.
Proof.
  split; [|reflexivity].
  apply (isNewYear_single_wrap_periodic 170 (-30) (-1)).
  - split; reflexivity.
  - split; reflexivity.
  - intros H; vm_compute in H; discriminate.
  - intros H; vm_compute in H; discriminate.
Defined.

(** C2, as stated, fails: three hours into the wave the midnight line is at
    135 east, not at -45, and longitude -44 has not entered the new year. *)
Lemma end_to_end_15utc_not_as_stated :
  ~ (solarMidnightLon (mkDateTime 2024 12 31 15 0 0 0) == -45
     /\ classify (mkDateTime 2024 12 31 15 0 0 0) = Some During
     /\ coverage (mkDateTime 2024 12 31 15 0 0 0) == 12.5
     /\ isNewYearIn During (solarMidnightLon (mkDateTime 2024 12 31 15 0 0 0))
          (-44) = true
     /\ isNewYearIn During (solarMidnightLon (mkDateTime 2024 12 31 15 0 0 0))
          (-46) = false).
Proof. intros (H & _). vm_compute in H. discriminate. Qed.

(** C2, amended.  At 2024-12-31 15:00:00 UTC [solarMidnightLon] is 135, the
    phase is During with coverage exactly 12.5, and with that phase and that
    midnight longitude [isNewYear] is false both for longitude -44 and for
    longitude -46. *)
Theorem end_to_end_15utc :
  solarMidnightLon (mkDateTime 2024 12 31 15 0 0 0) == 135
  /\ classify (mkDateTime 2024 12 31 15 0 0 0) = Some During
  /\ coverage (mkDateTime 2024 12 31 15 0 0 0) == 12.5
  /\ isNewYearIn During (solarMidnightLon (mkDateTime 2024 12 31 15 0 0 0))
       (-44) = false
  /\ isNewYearIn During (solarMidnightLon (mkDateTime 2024 12 31 15 0 0 0))
       (-46) = false.
Proof. repeat split; vm_compute; reflexivity. Qed.

(** The values the specification expected belong to 2025-01-01 03:00:00 UTC,
    fifteen hours into the wave. *)
Lemma end_to_end_03utc :
  solarMidnightLon (mkDateTime 2025 1 1 3 0 0 0) == -45
  /\ classify (mkDateTime 2025 1 1 3 0 0 0) = Some During
  /\ coverage (mkDateTime 2025 1 1 3 0 0 0) == 62.5
  /\ isNewYearAt (mkDateTime 2025 1 1 3 0 0 0) (-44) = true
  /\ isNewYearAt (mkDateTime 2025 1 1 3 0 0 0) (-46) = false.
Proof. repeat split; vm_compute; reflexivity. Qed.

(** ** The solar-midnight time predictor *)

(** The predictor reads the year of the current instant: its result is
    December 31 12:00:00 UTC of that year plus [(180 - lon) / 15] hours. *)
Lemma getSolarMidnightTime_current_year (t : DateTime) (lon : Q) :
  getSolarMidnightTime t lon
  == inject_Z (toMillis (utc (year t) 12 31 12 0 0))
     + (180 - lon) / 15 * 3600000.
Proof. reflexivity. Qed.

(** In December that is the window start of the display year. *)
Lemma getSolarMidnightTime_december (t : DateTime) (lon : Q) :
  month t = 12%Z ->
  getSolarMidnightTime t lon
  == inject_Z (toMillis (utc (displayYear t - 1) 12 31 12 0 0))
     + (180 - lon) / 15 * 3600000.
Proof.
  intros Hmo. unfold displayYear. rewrite Hmo. simpl (12 =? 12)%Z. cbv iota.
  replace (year t + 1 - 1)%Z with (year t) by lia. reflexivity.
Qed.

(** C3.  The claim reads: the predicted instant for [lon] and display year
    [year] is December 31 12:00:00 UTC of [year - 1] plus [(180 - lon) / 15]
    hours, whatever the instant of evaluation.  The code departs from it
    outside December: evaluated at 2025-01-01 06:00:00 UTC, when the display
    year is 2025, longitude 0 is predicted at January 1 2026 00:00:00 UTC,
    not at January 1 2025 00:00:00 UTC, which is what the same call yields
    when evaluated at 2024-12-31 15:00:00 UTC. *)
Theorem getSolarMidnightTime_january_next_year :
  displayYear (mkDateTime 2025 1 1 6 0 0 0) = 2025%Z
  /\ displayYear (mkDateTime 2024 12 31 15 0 0 0) = 2025%Z
  /\ getSolarMidnightTime (mkDateTime 2025 1 1 6 0 0 0) 0
     == inject_Z (toMillis (utc 2026 1 1 0 0 0))
  /\ ~ getSolarMidnightTime (mkDateTime 2025 1 1 6 0 0 0) 0
       == inject_Z (toMillis (utc 2025 1 1 0 0 0))
  /\ getSolarMidnightTime (mkDateTime 2024 12 31 15 0 0 0) 0
     == inject_Z (toMillis (utc 2025 1 1 0 0 0))
  /\ getSolarMidnightTime (mkDateTime 2024 12 31 15 0 0 0) 180
     == inject_Z (toMillis (utc 2024 12 31 12 0 0))
  /\ getSolarMidnightTime (mkDateTime 2024 12 31 15 0 0 0) (-180)
     == inject_Z (toMillis (utc 2025 1 1 12 0 0)).
Proof.
  repeat split; try (vm_compute; reflexivity).
  intros H. vm_compute in H. discriminate.
Qed.

(** * Further properties of the component *)

(** ** More on the normaliser *)

Lemma inject_Z_small (n : Z) : -1 < inject_Z n < 1 -> n = 0%Z.
Proof.
  intros [H1 H2].
  change (-1) with (inject_Z (-1)) in H1. change 1 with (inject_Z 1) in H2.
  rewrite <- Zlt_Qlt in H1, H2. lia.
Qed.

(** After a loop body has run, the result is strictly inside the opposite
    bound. *)
Lemma normalize_above (lon : Q) :
  180 < lon -> -180 < normalize lon <= 180.
Proof.
  intros Hgt. unfold normalize.
  destruct (whileBelow_spec _ lon (loopBound_below lon)) as (_ & _ & _ & H4).
  rewrite (H4 ltac:(lra)).
  destruct (whileAbove_spec _ lon (loopBound_above lon)) as (Hhi & _ & H3 & _).
  split; [apply H3, Hgt | exact Hhi].
Qed.

Lemma normalize_below (lon : Q) :
  lon < -180 -> -180 <= normalize lon < 180.
Proof.
  intros Hlt. unfold normalize.
  destruct (whileBelow_spec _ lon (loopBound_below lon)) as (Hlo & _ & H3 & _).
  specialize (H3 Hlt).
  set (a := whileBelow (loopBound lon) lon) in *.
  destruct (whileAbove_spec _ a (loopBound_above a)) as (_ & _ & _ & H4).
  rewrite (H4 ltac:(lra)). split; assumption.
Qed.

Lemma normalize_representative (lon x : Q) (j : Z) :
  -180 < x < 180 -> lon == x + 360 * inject_Z j -> normalize lon == x.
Proof.
  intros [Hlo Hhi] Hlon.
  destruct (normalize_range lon) as [R1 R2].
  destruct (normalize_congruent lon) as [k Hk].
  rewrite Hk in R1, R2 |- *.
  assert (Hz : (j + k = 0)%Z).
  { apply inject_Z_small. rewrite inject_Z_plus. split; lra. }
  assert (Hq : inject_Z j + inject_Z k == 0).
  { rewrite <- inject_Z_plus, Hz. reflexivity. }
  lra.
Qed.

(** Away from the date line [normalize] undoes any number of whole turns:
    it returns the one representative strictly between -180 and 180. *)
Theorem normalize_whole_turns (x : Q) (j : Z) :
  -180 < x < 180 -> normalize (x + 360 * inject_Z j) == x.
Proof.
  intros [Hlo Hhi].
  destruct (normalize_range (x + 360 * inject_Z j)) as [R1 R2].
  destruct (normalize_congruent (x + 360 * inject_Z j)) as [k Hk].
  rewrite Hk in R1, R2 |- *.
  assert (Hz : (j + k = 0)%Z).
  { apply inject_Z_small. rewrite inject_Z_plus. split; lra. }
  assert (Hq : inject_Z j + inject_Z k == 0).
  { rewrite <- inject_Z_plus, Hz. reflexivity. }
  lra.
Qed.

Lemma normalize_whole_turns_witness :
  normalize (-170 + 360 * inject_Z 1000) == -170.
Proof.
  apply (normalize_whole_turns (-170) 1000). split; reflexivity.
Defined.

(** On the date line the sign of the input decides: 180 plus whole turns
    eastward gives 180, -180 plus whole turns westward gives -180. *)
Theorem normalize_date_line (j : Z) :
  (0 <= j)%Z ->
  normalize (180 + 360 * inject_Z j) == 180
  /\ normalize (-180 - 360 * inject_Z j) == -180.
Proof.
  intros Hj.
  assert (Qj : 0 <= inject_Z j).
  { change 0 with (inject_Z 0). rewrite <- Zle_Qle. exact Hj. }
  split.
  - destruct (normalize_congruent (180 + 360 * inject_Z j)) as [k Hk].
    destruct (normalize_range (180 + 360 * inject_Z j)) as [R1 R2].
    destruct (Z.eq_dec j 0) as [->|Hne].
    + change (inject_Z 0) with 0.
      rewrite normalize_fixed; [lra | split; lra].
    + assert (Qj1 : 1 <= inject_Z j).
      { change 1 with (inject_Z 1). rewrite <- Zle_Qle. lia. }
      destruct (normalize_above (180 + 360 * inject_Z j) ltac:(lra))
        as [A1 A2].
      rewrite Hk in A1, A2 |- *.
      assert (Hz : (j + k = 0)%Z).
      { apply inject_Z_small. rewrite inject_Z_plus. split; lra. }
      assert (Hq : inject_Z j + inject_Z k == 0).
      { rewrite <- inject_Z_plus, Hz. reflexivity. }
      lra.
  - destruct (normalize_congruent (-180 - 360 * inject_Z j)) as [k Hk].
    destruct (Z.eq_dec j 0) as [->|Hne].
    + change (inject_Z 0) with 0.
      rewrite normalize_fixed; [lra | split; lra].
    + assert (Qj1 : 1 <= inject_Z j).
      { change 1 with (inject_Z 1). rewrite <- Zle_Qle. lia. }
      destruct (normalize_below (-180 - 360 * inject_Z j) ltac:(lra))
        as [A1 A2].
      rewrite Hk in A1, A2 |- *.
      assert (Hz : (k - j = 0)%Z).
      { apply inject_Z_small. unfold Z.sub.
        rewrite inject_Z_plus, inject_Z_opp. split; lra. }
      assert (Hq : inject_Z k - inject_Z j == 0).
      { unfold Qminus. rewrite <- inject_Z_opp, <- inject_Z_plus.
        change (k + - j)%Z with (k - j)%Z. rewrite Hz. reflexivity. }
      lra.
Qed.

Lemma normalize_date_line_witness :
  normalize (180 + 360 * inject_Z 3) == 180
  /\ normalize (-180 - 360 * inject_Z 3) == -180.
Proof. apply (normalize_date_line 3). lia. Defined.

(** ** The wave between its two ends *)

Lemma totalHours_bounds (t : DateTime) :
  validDateTime t ->
  inject_Z (hour t) <= totalHours t < inject_Z (hour t) + 1.
Proof.
  intros (_ & _ & _ & Hmi & Hs & _). unfold totalHours.
  pose proof (inject_Z_bounds _ _ _ Hmi) as Qmi.
  pose proof (inject_Z_bounds _ _ _ Hs) as Qs.
  change (inject_Z 0) with 0 in *. change (inject_Z 59) with 59 in *.
  qinv. split; lra.
Qed.

(** During the wave, on December 31 the coverage counts from noon, on
    January 1 from the noon before. *)
Lemma coverage_during_fields (t : DateTime) :
  validDateTime t -> PhaseCase t During ->
  (month t = 12%Z /\ day t = 31%Z /\ 12 <= totalHours t < 24
   /\ coverage t == (totalHours t - 12) / 24 * 100)
  \/ (month t = 1%Z /\ day t = 1%Z /\ 0 <= totalHours t < 12
      /\ coverage t == (totalHours t + 12) / 24 * 100).
Proof.
  intros Hv Hc.
  pose proof (totalHours_bounds t Hv) as [B1 B2].
  destruct Hv as (_ & _ & Hh & Hmi & _).
  destruct (phase_case_flags t During Hmi Hc) as (Hb & _ & Hcpl).
  pose proof (inject_Z_bounds _ _ _ Hh) as Qh.
  change (inject_Z 0) with 0 in *. change (inject_Z 23) with 23 in *.
  unfold coverage. rewrite Hb, Hcpl. fold (totalHours t).
  inversion Hc as [| [(Hmo & Hd & Hh12) | (Hmo & Hd & Hh12)] |].
  - left. rewrite Hmo, Hd. simpl.
    assert (Q12 : 12 <= inject_Z (hour t)).
    { change 12 with (inject_Z 12). rewrite <- Zle_Qle. exact Hh12. }
    repeat split; try reflexivity; lra.
  - right. rewrite Hmo, Hd. simpl.
    assert (Q11 : inject_Z (hour t) <= 11).
    { change 11 with (inject_Z 11). rewrite <- Zle_Qle. lia. }
    repeat split; try reflexivity; lra.
Qed.

Lemma solarMidnightLon_totalHours (t : DateTime) :
  solarMidnightLon t = normalize (- totalHours t * 15).
Proof. reflexivity. Qed.

Lemma solarMidnightLon_during (t : DateTime) :
  validDateTime t -> PhaseCase t During ->
  (coverage t == 0 /\ solarMidnightLon t == -180)
  \/ (0 < coverage t /\ solarMidnightLon t == 180 - (18 # 5) * coverage t).
Proof.
  intros Hv Hc. rewrite solarMidnightLon_totalHours.
  destruct (coverage_during_fields t Hv Hc)
    as [(_ & _ & [H1 H2] & Hcov) | (_ & _ & [H1 H2] & Hcov)].
  - destruct (Qlt_le_dec 12 (totalHours t)) as [Hgt|Hle].
    + right. split; [rewrite Hcov; qinv; lra|].
      apply (normalize_representative _ _ (-1)).
      * rewrite Hcov. qinv. split; lra.
      * rewrite Hcov. change (inject_Z (-1)) with (-1). qinv. lra.
    + left. split; [rewrite Hcov; qinv; lra|].
      rewrite normalize_fixed; [lra | split; lra].
  - right. split; [rewrite Hcov; qinv; lra|].
    rewrite normalize_fixed; [rewrite Hcov; qinv; lra | split; lra].
Qed.

(** During the wave the midnight line moves west in proportion to the
    coverage, 3.6 degrees per percent, starting from 180; only at the very
    start, with coverage 0, the line is reported at -180. *)
Theorem solarMidnightLon_linear_in_coverage (t : DateTime) :
  validDateTime t -> classify t = Some During ->
  (coverage t == 0 /\ solarMidnightLon t == -180)
  \/ (0 < coverage t /\ solarMidnightLon t == 180 - 3.6 * coverage t).
Proof.
  intros Hv Hcl.
  destruct (solarMidnightLon_during t Hv (classify_case t During Hv Hcl))
    as [H|[H1 H2]]; [left; exact H | right].
  split; [exact H1|]. rewrite H2. lra.
Qed.

Lemma solarMidnightLon_linear_in_coverage_witness :
  coverage (mkDateTime 2025 1 1 3 0 0 0) == 62.5
  /\ solarMidnightLon (mkDateTime 2025 1 1 3 0 0 0)
     == 180 - 3.6 * coverage (mkDateTime 2025 1 1 3 0 0 0).
Proof.
  split; [vm_compute; reflexivity|].
  assert (Hv : validDateTime (mkDateTime 2025 1 1 3 0 0 0))
    by (repeat split; vm_compute; discriminate).
  destruct (solarMidnightLon_linear_in_coverage _ Hv eq_refl)
    as [[H0 _]|[_ H]]; [|exact H].
  vm_compute in H0. discriminate.
Defined.

(** ** The flags against the clock *)

Lemma daysFromEpoch_january (y d : Z) :
  (daysFromEpoch y 1 d = daysFromEpoch y 1 1 + (d - 1))%Z.
Proof.
  unfold daysFromEpoch. change (2 <? 1)%Z with false.
  rewrite andb_false_r. lia.
Qed.

Lemma daysFromEpoch_after_january (y mo d : Z) :
  (2 <= mo <= 11)%Z -> (1 <= d)%Z ->
  (daysFromEpoch y 1 1 + 31 <= daysFromEpoch y mo d)%Z.
Proof.
  intros Hmo Hd. unfold daysFromEpoch.
  change (2 <? 1)%Z with false. rewrite andb_false_r.
  change (daysBeforeMonth 1) with 0%Z.
  assert (H31 : (31 <= daysBeforeMonth mo)%Z).
  { assert (Hc : (mo = 2 \/ mo = 3 \/ mo = 4 \/ mo = 5 \/ mo = 6 \/ mo = 7
                  \/ mo = 8 \/ mo = 9 \/ mo = 10 \/ mo = 11)%Z) by lia.
    repeat (destruct Hc as [->|Hc]; [vm_compute; discriminate|]).
    subst mo. vm_compute. discriminate. }
  destruct (isLeapYear y && (2 <? mo)%Z); lia.
Qed.

Lemma toMillis_windowStart (t : DateTime) :
  toMillis (windowStart t)
  = ((daysFromEpoch (previousYear t) 12 31 * 24 + 12) * 3600000)%Z.
Proof.
  unfold toMillis, windowStart, utc.
  cbn [year month day hour minute second millisecond]. lia.
Qed.

(** Where an instant of each phase lies relative to its window start. *)
Lemma phase_case_millis (t : DateTime) (p : Phase) :
  validDateTime t -> PhaseCase t p ->
  match p with
  | Before => (toMillis t < toMillis (windowStart t))%Z
  | During =>
      (toMillis (windowStart t) <= toMillis t
       < toMillis (windowStart t) + 86400000)%Z
  | Complete => (toMillis (windowStart t) + 86400000 <= toMillis t)%Z
  end.
Proof.
  intros Hv Hc. rewrite toMillis_windowStart.
  destruct Hv as (Hmo & Hd & Hh & Hmi & Hs & Hms).
  unfold previousYear, toMillis.
  destruct Hc as [(Hm & Hday) | [(Hm & Hday & Hh12) | (Hm & Hday & Hh12)]
                  | [(Hm & Hday) | Hm]].
  - rewrite Hm. simpl (12 =? 12)%Z. cbv iota.
    unfold daysFromEpoch. lia.
  - rewrite Hm, Hday. simpl (12 =? 12)%Z. cbv iota. lia.
  - rewrite Hm, Hday. simpl (1 =? 12)%Z. cbv iota.
    rewrite jan1_after_dec31. lia.
  - rewrite Hm. simpl (1 =? 12)%Z. cbv iota.
    rewrite daysFromEpoch_january, jan1_after_dec31. lia.
  - replace (month t =? 12)%Z with false
      by (symmetry; apply Z.eqb_neq; lia).
    pose proof (daysFromEpoch_after_january (year t) (month t) (day t)
                  ltac:(lia) ltac:(lia)) as H31.
    rewrite jan1_after_dec31 in H31. lia.
Qed.

(** The phase computed from the calendar fields is the position of the
    instant relative to the 24-hour window that starts on December 31
    12:00:00 UTC of [previousYear]: before it, inside it, or past it. *)
Theorem classify_by_timestamp (t : DateTime) :
  validDateTime t ->
  (classify t = Some Before <-> (toMillis t < toMillis (windowStart t))%Z)
  /\ (classify t = Some During
      <-> (toMillis (windowStart t) <= toMillis t
           < toMillis (windowStart t) + 86400000)%Z)
  /\ (classify t = Some Complete
      <-> (toMillis (windowStart t) + 86400000 <= toMillis t)%Z).
Proof.
  intros Hv.
  assert (Hm : (0 <= minute t <= 59)%Z) by (destruct Hv; tauto).
  destruct (valid_phase_case t Hv) as [p Hp].
  pose proof (phase_case_millis t p Hv Hp) as Hpos.
  rewrite (phase_case_classify t p Hm Hp).
  destruct p; (split; [|split]); (split; intros Hx);
    first [ reflexivity | discriminate Hx | lia ].
Qed.

Lemma classify_by_timestamp_witness :
  classify (mkDateTime 2025 3 15 8 0 0 0) = Some Complete
  /\ (toMillis (windowStart (mkDateTime 2025 3 15 8 0 0 0)) + 86400000
      <= toMillis (mkDateTime 2025 3 15 8 0 0 0))%Z.
Proof.
  split; [reflexivity|].
  assert (Hv : validDateTime (mkDateTime 2025 3 15 8 0 0 0))
    by (repeat split; vm_compute; discriminate).
  exact (proj1 (proj2 (proj2 (classify_by_timestamp _ Hv))) eq_refl).
Defined.

(** ** Membership outside and at the start of the wave *)

Lemma isNewYearAt_during (t : DateTime) (lon : Q) :
  inTransition t = true -> transitionComplete t = false ->
  isNewYearAt t lon = isNewYearIn During (solarMidnightLon t) lon.
Proof.
  intros Hi Hc. unfold isNewYearAt, isNewYearIn. rewrite Hi, Hc. reflexivity.
Qed.

(** In the first second of the wave, December 31 12:00:00 UTC, the coverage
    is 0 and the midnight line is reported at -180, the status is the one
    of the final stretch, and every longitude above -180 up to 180 already
    counts as in the new year. *)
Theorem isNewYear_first_second (y ms : Z) (lon : Q) :
  -180 < lon <= 180 ->
  classify (mkDateTime y 12 31 12 0 0 ms) = Some During
  /\ coverage (mkDateTime y 12 31 12 0 0 ms) == 0
  /\ solarMidnightLon (mkDateTime y 12 31 12 0 0 ms) == -180
  /\ status (mkDateTime y 12 31 12 0 0 ms) = FinalStretch
  /\ isNewYearAt (mkDateTime y 12 31 12 0 0 ms) lon = true.
Proof.
  intros [Hlo Hhi].
  assert (Hm : solarMidnightLon (mkDateTime y 12 31 12 0 0 ms) == -180)
    by (vm_compute; reflexivity).
  split; [reflexivity|].
  split; [vm_compute; reflexivity|].
  split; [exact Hm|].
  split; [vm_compute; reflexivity|].
  rewrite isNewYearAt_during by reflexivity.
  apply isNewYear_during_in_range; [split; lra|].
  left. rewrite Hm. exact Hlo.
Qed.

Lemma isNewYear_first_second_witness :
  isNewYearAt (mkDateTime 2024 12 31 12 0 0 0) (-75) = true.
Proof.
  apply (isNewYear_first_second 2024 0 (-75)).
  split; [reflexivity | unfold Qle; simpl; lia].
Defined.

(** ** Locator, predictor and membership test together *)

Lemma windowStart_whole_second (t : DateTime) :
  toMillis (windowStart t) = (wholeSeconds (windowStart t) * 1000)%Z.
Proof.
  rewrite (wholeSeconds_fields (windowStart t)) by (simpl; lia).
  unfold toMillis, windowStart, utc.
  cbn [year month day hour minute second millisecond]. lia.
Qed.

(** The whole second of [t] is the window start plus the elapsed hours. *)
Lemma secondMillis_elapsed (t : DateTime) :
  secondMillis t
  == inject_Z (toMillis (windowStart t))
     + hoursSinceWindowStart t * 3600000.
Proof.
  unfold secondMillis, hoursSinceWindowStart.
  rewrite windowStart_whole_second.
  unfold Z.sub.
  rewrite !inject_Z_mult, inject_Z_plus, inject_Z_opp.
  change (inject_Z 1000) with 1000. qinv. lra.
Qed.

(** A prediction made with the window's previous year as the current
    year counts from the window start. *)
Lemma getSolarMidnightTime_windowStart (t0 t : DateTime) (lon : Q) :
  year t0 = previousYear t ->
  getSolarMidnightTime t0 lon
  == inject_Z (toMillis (windowStart t)) + (180 - lon) / 15 * 3600000.
Proof.
  intros Hy. rewrite getSolarMidnightTime_current_year, Hy. reflexivity.
Qed.

(** During the wave, past its first second, the midnight line is 15
    degrees west of 180 per elapsed hour. *)
Lemma solarMidnightLon_elapsed (t : DateTime) :
  validDateTime t -> PhaseCase t During -> 0 < coverage t ->
  0 < hoursSinceWindowStart t
  /\ solarMidnightLon t == 180 - 15 * hoursSinceWindowStart t.
Proof.
  intros Hv Hc Hpos.
  destruct (coverage_during t Hv Hc) as (Hcov & _).
  destruct (solarMidnightLon_during t Hv Hc) as [[H0 _]|[_ Hm]]; [lra|].
  rewrite Hm. rewrite Hcov in Hpos |- *. qinv. split; lra.
Qed.

(** During the wave, past its first second, the membership test and the
    predictor agree to the second.  A longitude in range whose predicted
    solar midnight (predicted with the window's previous year as the
    current year, as in the December before) lies a second or more before
    the current second counts as in the new year.  A longitude whose
    predicted solar midnight lies a second or more after the current second
    does not, provided the midnight line is in the western hemisphere or
    the longitude is not negative. *)
Theorem isNewYear_against_prediction (t t0 : DateTime) (lon : Q) :
  validDateTime t -> classify t = Some During -> 0 < coverage t ->
  year t0 = previousYear t -> -180 <= lon <= 180 ->
  (getSolarMidnightTime t0 lon + 1000 <= secondMillis t ->
   isNewYearAt t lon = true)
  /\ (solarMidnightLon t <= 0 \/ 0 <= lon ->
      secondMillis t + 1000 <= getSolarMidnightTime t0 lon ->
      isNewYearAt t lon = false).
Proof.
  intros Hv Hcl Hpos Hy Hlon.
  pose proof (classify_case t During Hv Hcl) as Hc.
  assert (Hm : (0 <= minute t <= 59)%Z) by (destruct Hv; tauto).
  destruct (phase_case_flags t During Hm Hc) as (_ & Hi & Hcpl).
  destruct (solarMidnightLon_elapsed t Hv Hc Hpos) as (HE & Hline).
  rewrite (isNewYearAt_during t lon Hi Hcpl).
  rewrite (getSolarMidnightTime_windowStart t0 t lon Hy).
  rewrite secondMillis_elapsed.
  pose proof (isNewYear_during_in_range (solarMidnightLon t) lon Hlon)
    as Hiff.
  set (E := hoursSinceWindowStart t) in *.
  set (m := solarMidnightLon t) in *.
  set (W := inject_Z (toMillis (windowStart t))).
  split.
  - intros Hpast. apply Hiff. left. qinv. lra.
  - intros Hside Hfuture.
    destruct (isNewYearIn During m lon) eqn:Eq; [|reflexivity].
    exfalso. destruct (proj1 Hiff eq_refl) as [H|[H1 H2]].
    + qinv. lra.
    + destruct Hside; lra.
Qed.

Lemma isNewYear_against_prediction_witness :
  getSolarMidnightTime (mkDateTime 2024 12 15 0 0 0 0) (-44) + 1000
  <= secondMillis (mkDateTime 2025 1 1 3 0 0 0)
  /\ isNewYearAt (mkDateTime 2025 1 1 3 0 0 0) (-44) = true
  /\ isNewYearAt (mkDateTime 2025 1 1 3 0 0 0) (-46) = false.
Proof.
  assert (Hv : validDateTime (mkDateTime 2025 1 1 3 0 0 0))
    by (repeat split; vm_compute; discriminate).
  assert (Hp : getSolarMidnightTime (mkDateTime 2024 12 15 0 0 0 0) (-44)
               + 1000 <= secondMillis (mkDateTime 2025 1 1 3 0 0 0))
    by (unfold Qle; vm_compute; discriminate).
  split; [exact Hp|]. split.
  - refine (proj1 (isNewYear_against_prediction
                     (mkDateTime 2025 1 1 3 0 0 0)
                     (mkDateTime 2024 12 15 0 0 0 0) (-44)
                     Hv eq_refl _ eq_refl _) Hp).
    + reflexivity.
    + split; unfold Qle; simpl; lia.
  - refine (proj2 (isNewYear_against_prediction
                     (mkDateTime 2025 1 1 3 0 0 0)
                     (mkDateTime 2024 12 15 0 0 0 0) (-46)
                     Hv eq_refl _ eq_refl _) _ _).
    + reflexivity.
    + split; unfold Qle; simpl; lia.
    + left. unfold Qle. vm_compute. discriminate.
    + unfold Qle. vm_compute. discriminate.
Defined.

(** Locator and predictor are inverse to each other during the wave: past
    its first second, the instant predicted for the longitude of the
    midnight line is the current second. *)
Theorem getSolarMidnightTime_of_solarMidnightLon (t t0 : DateTime) :
  validDateTime t -> classify t = Some During -> 0 < coverage t ->
  year t0 = previousYear t ->
  getSolarMidnightTime t0 (solarMidnightLon t) == secondMillis t.
Proof.
  intros Hv Hcl Hpos Hy.
  pose proof (classify_case t During Hv Hcl) as Hc.
  destruct (solarMidnightLon_elapsed t Hv Hc Hpos) as (_ & Hline).
  rewrite (getSolarMidnightTime_windowStart t0 t _ Hy).
  rewrite secondMillis_elapsed. rewrite Hline. qinv. lra.
Qed.

Lemma getSolarMidnightTime_of_solarMidnightLon_witness :
  getSolarMidnightTime (mkDateTime 2024 12 31 17 20 30 500)
    (solarMidnightLon (mkDateTime 2024 12 31 17 20 30 500))
  == secondMillis (mkDateTime 2024 12 31 17 20 30 500).
Proof.
  apply (getSolarMidnightTime_of_solarMidnightLon
           (mkDateTime 2024 12 31 17 20 30 500)
           (mkDateTime 2024 12 31 17 20 30 500)).
  - repeat split; vm_compute; discriminate.
  - reflexivity.
  - reflexivity.
  - reflexivity.
Defined.

(** ** The status line *)

Lemma status_complete (t : DateTime) :
  transitionComplete t = true -> status t = HappyNewYear.
Proof. intros H. unfold status. rewrite H. reflexivity. Qed.

(** The band of the wave shown for a midnight longitude [m]. *)
Lemma status_during (t : DateTime) :
  transitionComplete t = false -> inTransition t = true ->
  status t
  = let m := solarMidnightLon t in
    if m >? 120 then WaveBeginning
    else if m >? 60 then CrossingEastAsia
    else if m >? 0 then CrossingSouthAsia
    else if m >? -30 then CrossingEurope
    else if m >? -90 then CrossingAtlantic
    else if m >? -150 then CrossingAmericas
    else FinalStretch.
Proof. intros Hc Hi. unfold status. rewrite Hc, Hi. reflexivity. Qed.

Lemma status_before (t : DateTime) (c : Countdown) :
  transitionComplete t = false -> inTransition t = false ->
  beforeTransition t = true -> countdown t = Some c ->
  status t
  = if ((cd_days c =? 0) && (cd_hours c <? 1))%Z then AlmostThere
    else if (cd_days c =? 0)%Z then WaveStartingSoon
    else AwaitingWaveStart.
Proof.
  intros Hc Hi Hb Hcd. unfold status. rewrite Hc, Hi, Hb, Hcd. reflexivity.
Qed.

(** Before the wave the status goes by the time that remains until
    December 31 12:00:00 UTC of the instant's year: less than an hour,
    less than a day, or a day and more. *)
Theorem status_before_by_remaining (t : DateTime) :
  validDateTime t -> classify t = Some Before ->
  let remaining :=
    (toMillis (utc (year t) 12 31 12 0 0) - toMillis t)%Z in
  (status t = AlmostThere <-> (remaining < 3600000)%Z)
  /\ (status t = WaveStartingSoon
      <-> (3600000 <= remaining < 86400000)%Z)
  /\ (status t = AwaitingWaveStart <-> (86400000 <= remaining)%Z).
Proof.
  intros Hv Hcl remaining.
  pose proof (classify_case t Before Hv Hcl) as Hc.
  pose proof (before_millis_ahead t Hv Hc) as Hlt.
  assert (Hm : (0 <= minute t <= 59)%Z) by (destruct Hv; tauto).
  destruct (phase_case_flags t Before Hm Hc) as (Hb & Hi & Hcpl).
  destruct (countdown_ahead t Hb Hlt) as (total & _ & Hcd).
  fold remaining in Hcd.
  rewrite (status_before t _ Hcpl Hi Hb Hcd).
  cbn [cd_days cd_hours].
  assert (Hpos : (0 < remaining)%Z) by (unfold remaining; lia).
  destruct (Z.eqb_spec (remaining / 86400000) 0) as [Hd|Hd];
    destruct (Z.ltb_spec (remaining mod 86400000 / 3600000) 1) as [Hh|Hh];
    cbn [andb];
    (split; [|split]); (split; intros Hx);
    first [ reflexivity | discriminate Hx
          | (exfalso; Z.div_mod_to_equations; lia)
          | (Z.div_mod_to_equations; lia) ].
Qed.

Lemma status_before_by_remaining_witness :
  status (mkDateTime 2024 12 31 11 0 0 1) = AlmostThere
  /\ status (mkDateTime 2024 12 31 11 0 0 0) = WaveStartingSoon
  /\ status (mkDateTime 2024 12 30 12 0 0 0) = AwaitingWaveStart.
Proof.
  split; [|split].
  - apply (status_before_by_remaining (mkDateTime 2024 12 31 11 0 0 1));
      [repeat split; vm_compute; discriminate | reflexivity | reflexivity].
  - apply (status_before_by_remaining (mkDateTime 2024 12 31 11 0 0 0));
      [repeat split; vm_compute; discriminate | reflexivity
      | vm_compute; split; discriminate || reflexivity].
  - apply (status_before_by_remaining (mkDateTime 2024 12 30 12 0 0 0));
      [repeat split; vm_compute; discriminate | reflexivity
      | vm_compute; discriminate].
Defined.

(** The elapsed whole seconds give the elapsed hours. *)
Lemma hoursSinceWindowStart_seconds (t : DateTime) :
  hoursSinceWindowStart t * 3600
  == inject_Z (wholeSeconds t - wholeSeconds (windowStart t)).
Proof. unfold hoursSinceWindowStart. qinv. lra. Qed.

(** During the wave the status band goes by the whole seconds elapsed
    since the window start: the thresholds 120, 60, 0, -30, -90 and -150
    degrees are reached after 4, 8, 12, 14, 18 and 22 hours.  The last band
    is also shown in the first second of the wave. *)
Theorem status_during_by_elapsed_seconds (t : DateTime) :
  validDateTime t -> classify t = Some During ->
  let e := (wholeSeconds t - wholeSeconds (windowStart t))%Z in
  (status t = WaveBeginning <-> (0 < e < 14400)%Z)
  /\ (status t = CrossingEastAsia <-> (14400 <= e < 28800)%Z)
  /\ (status t = CrossingSouthAsia <-> (28800 <= e < 43200)%Z)
  /\ (status t = CrossingEurope <-> (43200 <= e < 50400)%Z)
  /\ (status t = CrossingAtlantic <-> (50400 <= e < 64800)%Z)
  /\ (status t = CrossingAmericas <-> (64800 <= e < 79200)%Z)
  /\ (status t = FinalStretch <-> (e = 0 \/ 79200 <= e)%Z).
Proof.
  intros Hv Hcl e.
  pose proof (classify_case t During Hv Hcl) as Hc.
  assert (Hm : (0 <= minute t <= 59)%Z) by (destruct Hv; tauto).
  destruct (phase_case_flags t During Hm Hc) as (_ & Hi & Hcpl).
  destruct (coverage_during t Hv Hc) as (Hcov & Hc0 & Hc100).
  pose proof (hoursSinceWindowStart_seconds t) as He. fold e in He.
  rewrite (status_during t Hcpl Hi). cbv zeta.
  assert (Hz : forall a b : Z, (a < b)%Z <-> inject_Z a < inject_Z b)
    by (intros; rewrite Zlt_Qlt; reflexivity).
  assert (Hzle : forall a b : Z, (a <= b)%Z <-> inject_Z a <= inject_Z b)
    by (intros; rewrite Zle_Qle; reflexivity).
  assert (Hzeq : e = 0%Z <-> inject_Z e == 0)
    by (change 0 with (inject_Z 0); symmetry; apply inject_Z_injective).
  rewrite !Hz, !Hzle, Hzeq.
  change (inject_Z 0) with 0. change (inject_Z 14400) with 14400.
  change (inject_Z 28800) with 28800. change (inject_Z 43200) with 43200.
  change (inject_Z 50400) with 50400. change (inject_Z 64800) with 64800.
  change (inject_Z 79200) with 79200.
  set (q := inject_Z e) in *. set (E := hoursSinceWindowStart t) in *.
  destruct (solarMidnightLon_during t Hv Hc) as [[H0 Hline]|[Hpos Hline]];
    set (m := solarMidnightLon t) in *; set (c := coverage t) in *;
    assert (HcE : c == E * (25 # 6)) by (rewrite Hcov; qinv; lra);
    qtests;
    repeat match goal with
    | |- _ /\ _ => split
    | |- _ <-> _ => split; intros Hx
    end;
    first [ reflexivity | discriminate Hx | lra
          | (exfalso; destruct Hx; lra) | (left; lra) | (right; lra)
          | (split; lra) | (exfalso; lra) ].
Qed.

Lemma status_during_by_elapsed_seconds_witness :
  (wholeSeconds (mkDateTime 2024 12 31 16 0 0 0)
   - wholeSeconds (windowStart (mkDateTime 2024 12 31 16 0 0 0)) = 14400)%Z
  /\ status (mkDateTime 2024 12 31 16 0 0 0) = CrossingEastAsia
  /\ status (mkDateTime 2024 12 31 15 59 59 999) = WaveBeginning.
Proof.
  split; [reflexivity|]. split.
  - apply (status_during_by_elapsed_seconds (mkDateTime 2024 12 31 16 0 0 0));
      [repeat split; vm_compute; discriminate | reflexivity
      | vm_compute; split; discriminate || reflexivity].
  - apply (status_during_by_elapsed_seconds
             (mkDateTime 2024 12 31 15 59 59 999));
      [repeat split; vm_compute; discriminate | reflexivity
      | vm_compute; split; reflexivity].
Defined.

(** The final fallback of [status] is dead for real dates: the status is
    the complete message exactly after the wave, one of the three waiting
    messages exactly before it, and never 'Awaiting New Year'. *)
Theorem status_by_phase (t : DateTime) :
  validDateTime t ->
  status t <> AwaitingNewYear
  /\ (status t = HappyNewYear <-> classify t = Some Complete)
  /\ (status t = AlmostThere \/ status t = WaveStartingSoon
      \/ status t = AwaitingWaveStart <-> classify t = Some Before).
Proof.
  intros Hv.
  assert (Hm : (0 <= minute t <= 59)%Z) by (destruct Hv; tauto).
  destruct (valid_phase_case t Hv) as [p Hp].
  pose proof (phase_case_classify t p Hm Hp) as Hcl.
  destruct (phase_case_flags t p Hm Hp) as (Hb & Hi & Hcpl).
  rewrite Hcl. destruct p.
  - pose proof (before_millis_ahead t Hv Hp) as Hlt.
    destruct (countdown_ahead t Hb Hlt) as (total & _ & Hcd).
    rewrite (status_before t _ Hcpl Hi Hb Hcd).
    destruct ((_ =? 0) && (_ <? 1))%Z; [|destruct (_ =? 0)%Z];
      (split; [discriminate|]);
      (split; [split; discriminate|]);
      (split; [reflexivity|]); intros _; tauto.
  - rewrite (status_during t Hcpl Hi). cbv zeta.
    qtests;
      (split; [discriminate|]);
      (split; [split; discriminate|]);
      (split; [|discriminate]);
      intros [Hx|[Hx|Hx]]; discriminate Hx.
  - rewrite (status_complete t Hcpl).
    split; [discriminate|]. split; [tauto|].
    split; [|discriminate].
    intros [Hx|[Hx|Hx]]; discriminate Hx.
Qed.

Lemma status_by_phase_witness :
  status (mkDateTime 2025 6 15 0 0 0 0) <> AwaitingNewYear
  /\ status (mkDateTime 2025 6 15 0 0 0 0) = HappyNewYear.
Proof.
  assert (Hv : validDateTime (mkDateTime 2025 6 15 0 0 0 0))
    by (repeat split; vm_compute; discriminate).
  destruct (status_by_phase _ Hv) as (H1 & H2 & _).
  split; [exact H1 | apply H2; reflexivity].
Defined.

(** ** The countdown display *)

Lemma padStart2_twoDigits (n : Z) :
  (0 <= n < 100)%Z -> twoDigits (padStart2 (jsString n)) = true.
Proof.
  intros Hn. rewrite <- (Z2Nat.id n) by lia.
  assert (Hk : (Z.to_nat n < 100)%nat) by lia.
  generalize dependent (Z.to_nat n). clear Hn. intros k Hk.
  do 100 (destruct k as [|k]; [reflexivity|]). lia.
Qed.

Lemma twoDigits_inv (s : string) :
  twoDigits s = true ->
  exists c1 c2, s = String c1 (String c2 EmptyString)
                /\ isDigit c1 = true /\ isDigit c2 = true.
Proof.
  destruct s as [|c1 [|c2 [|c3 s]]]; simpl; try discriminate.
  intros H. apply andb_true_iff in H. exists c1, c2. tauto.
Qed.

Lemma clock_isClock (h m s : Z) :
  (0 <= h < 100)%Z -> (0 <= m < 100)%Z -> (0 <= s < 100)%Z ->
  isClock (padStart2 (jsString h) ++ ":" ++ padStart2 (jsString m) ++ ":"
           ++ padStart2 (jsString s))%string = true.
Proof.
  intros Hh Hm Hs.
  destruct (twoDigits_inv _ (padStart2_twoDigits h Hh))
    as (h1 & h2 & -> & Dh1 & Dh2).
  destruct (twoDigits_inv _ (padStart2_twoDigits m Hm))
    as (m1 & m2 & -> & Dm1 & Dm2).
  destruct (twoDigits_inv _ (padStart2_twoDigits s Hs))
    as (s1 & s2 & -> & Ds1 & Ds2).
  simpl. rewrite Dh1, Dh2, Dm1, Dm2, Ds1, Ds2. reflexivity.
Qed.

(** The countdown display exists exactly before the wave.  It is then a
    clock reading HH:MM:SS of exactly eight characters, preceded by the
    number of days, the letter d and a space when at least a day
    remains. *)
Theorem countdownDisplay_format (t : DateTime) :
  validDateTime t ->
  (classify t <> Some Before -> countdownDisplay (countdown t) = None)
  /\ (classify t = Some Before ->
      exists (c : Countdown) (clock : string),
        countdown t = Some c
        /\ isClock clock = true
        /\ countdownDisplay (countdown t)
           = Some (if (cd_days c >? 0)%Z
                   then ((jsString (cd_days c) ++ "d") ++ " " ++ clock)%string
                   else clock)).
Proof.
  intros Hv.
  assert (Hm : (0 <= minute t <= 59)%Z) by (destruct Hv; tauto).
  split.
  - intros Hn.
    destruct (valid_phase_case t Hv) as [p Hp].
    pose proof (phase_case_classify t p Hm Hp) as Hcl.
    destruct (phase_case_flags t p Hm Hp) as (Hb & _).
    destruct p; [congruence| |];
      unfold countdown; rewrite Hb; reflexivity.
  - intros Hcl.
    pose proof (classify_case t Before Hv Hcl) as Hc.
    pose proof (before_millis_ahead t Hv Hc) as Hlt.
    destruct (phase_case_flags t Before Hm Hc) as (Hb & _).
    destruct (countdown_ahead t Hb Hlt) as (total & _ & Hcd).
    set (ms := (toMillis (utc (year t) 12 31 12 0 0) - toMillis t)%Z) in *.
    destruct (shiftMillis_units ms ltac:(unfold ms; lia))
      as (_ & Hh & Hmi & Hs).
    eexists. eexists. split; [exact Hcd|].
    rewrite Hcd. unfold countdownDisplay.
    cbn [cd_days cd_hours cd_minutes cd_seconds].
    split; cycle 1.
    { destruct (ms / 86400000 >? 0)%Z; reflexivity. }
    apply clock_isClock; lia.
Qed.

Lemma countdownDisplay_format_witness :
  countdownDisplay (countdown (mkDateTime 2024 12 1 0 0 1 250))
  = Some "30d 11:59:58"%string
  /\ countdownDisplay (countdown (mkDateTime 2024 12 31 11 59 58 0))
     = Some "00:00:02"%string
  /\ countdownDisplay (countdown (mkDateTime 2025 1 1 0 0 0 0)) = None.
Proof.
  split; [reflexivity|]. split; [reflexivity|].
  apply (countdownDisplay_format (mkDateTime 2025 1 1 0 0 0 0)).
  - repeat split; vm_compute; discriminate.
  - discriminate.
Defined.

(** ** The single wrap against the loops *)

(** Within one and a half turns either side, the single wrap is what the
    loops compute. *)
Lemma wrapOnce_normalize (lon : Q) :
  -540 <= lon <= 540 -> wrapOnce lon == normalize lon.
Proof.
  intros [Hlo Hhi]. unfold wrapOnce.
  destruct (normalize_congruent lon) as [k Hk].
  destruct (lon >? 180) eqn:E1; [apply Qgtb_true in E1|apply Qgtb_false in E1].
  - destruct (normalize_above lon E1) as [A1 A2].
    rewrite Hk in A1, A2 |- *.
    assert (Hz : (k + 1 = 0)%Z).
    { apply inject_Z_small. rewrite inject_Z_succ. split; lra. }
    assert (Hq : inject_Z k + 1 == 0).
    { rewrite <- inject_Z_succ, Hz. reflexivity. }
    lra.
  - destruct (lon <? -180) eqn:E2;
      [apply Qltb_true in E2|apply Qltb_false in E2].
    + destruct (normalize_below lon E2) as [A1 A2].
      rewrite Hk in A1, A2 |- *.
      assert (Hz : (k - 1 = 0)%Z).
      { apply inject_Z_small. unfold Z.sub.
        rewrite inject_Z_plus, inject_Z_opp. change (inject_Z 1) with 1.
        split; lra. }
      assert (Hq : inject_Z k - 1 == 0).
      { change 1 with (inject_Z 1). unfold Qminus.
        rewrite <- inject_Z_opp, <- inject_Z_plus.
        fold (Z.sub k 1). rewrite Hz. reflexivity. }
      lra.
    + rewrite normalize_fixed; [reflexivity | split; assumption].
Qed.

(** For a longitude between -540 and 540 the membership test answers as it
    does for the normalised longitude: there its single wrap by 360 does
    the work of the normalisation loops. *)
Theorem isNewYear_of_normalize (m lon : Q) :
  -540 <= lon <= 540 ->
  isNewYearIn During m lon = isNewYearIn During m (normalize lon).
Proof.
  intros Hlon. apply isNewYear_during_comp.
  rewrite (wrapOnce_normalize lon Hlon).
  destruct (normalize_range lon) as [R1 R2].
  unfold wrapOnce at 1.
  assert (E1 : (normalize lon >? 180) = false) by (apply Qgtb_false; exact R2).
  assert (E2 : (normalize lon <? -180) = false)
    by (apply Qltb_false; exact R1).
  rewrite E1, E2. reflexivity.
Qed.

Lemma isNewYear_of_normalize_witness :
  isNewYearIn During (-30) 190 = isNewYearIn During (-30) (normalize 190)
  /\ normalize 190 == -170.
Proof.
  split; [|vm_compute; reflexivity].
  apply (isNewYear_of_normalize (-30) 190).
  split; unfold Qle; simpl; lia.
Defined.

(** ** Membership over time *)

(** Within one wave, past its first second, a longitude that is not
    negative and has entered the new year stays in it; so does any
    longitude in range once the midnight line is in the western
    hemisphere. *)
Theorem isNewYear_stays (t1 t2 : DateTime) (lon : Q) :
  validDateTime t1 -> validDateTime t2 ->
  classify t1 = Some During -> classify t2 = Some During ->
  previousYear t1 = previousYear t2 ->
  0 < coverage t1 -> secondMillis t1 <= secondMillis t2 ->
  -180 <= lon <= 180 -> solarMidnightLon t1 <= 0 \/ 0 <= lon ->
  isNewYearAt t1 lon = true -> isNewYearAt t2 lon = true.
Proof.
  intros Hv1 Hv2 Hcl1 Hcl2 Hy Hpos Hle Hlon Hside.
  pose proof (classify_case t1 During Hv1 Hcl1) as Hc1.
  pose proof (classify_case t2 During Hv2 Hcl2) as Hc2.
  assert (Hm1 : (0 <= minute t1 <= 59)%Z) by (destruct Hv1; tauto).
  assert (Hm2 : (0 <= minute t2 <= 59)%Z) by (destruct Hv2; tauto).
  destruct (phase_case_flags t1 During Hm1 Hc1) as (_ & Hi1 & Hcpl1).
  destruct (phase_case_flags t2 During Hm2 Hc2) as (_ & Hi2 & Hcpl2).
  destruct (solarMidnightLon_elapsed t1 Hv1 Hc1 Hpos) as (HE1 & Hline1).
  rewrite !secondMillis_elapsed in Hle.
  assert (HW : windowStart t2 = windowStart t1)
    by (unfold windowStart; rewrite Hy; reflexivity).
  rewrite HW in Hle.
  destruct (coverage_during t2 Hv2 Hc2) as (Hcov2 & _).
  assert (Hpos2 : 0 < coverage t2) by (rewrite Hcov2; qinv; lra).
  destruct (solarMidnightLon_elapsed t2 Hv2 Hc2 Hpos2) as (HE2 & Hline2).
  rewrite (isNewYearAt_during t1 lon Hi1 Hcpl1).
  rewrite (isNewYearAt_during t2 lon Hi2 Hcpl2).
  rewrite !(isNewYear_during_in_range _ lon Hlon).
  intros [H|[H1 H2]]; [left; lra|].
  destruct Hside; lra.
Qed.

Lemma isNewYear_stays_witness :
  isNewYearAt (mkDateTime 2024 12 31 14 0 0 0) 170 = true
  /\ isNewYearAt (mkDateTime 2025 1 1 9 30 0 0) 170 = true.
Proof.
  assert (H1 : isNewYearAt (mkDateTime 2024 12 31 14 0 0 0) 170 = true)
    by reflexivity.
  split; [exact H1|].
  apply (isNewYear_stays (mkDateTime 2024 12 31 14 0 0 0)
           (mkDateTime 2025 1 1 9 30 0 0) 170).
  - repeat split; vm_compute; discriminate.
  - repeat split; vm_compute; discriminate.
  - reflexivity.
  - reflexivity.
  - reflexivity.
  - reflexivity.
  - unfold Qle. vm_compute. discriminate.
  - split; unfold Qle; simpl; lia.
  - right. unfold Qle; simpl; lia.
  - exact H1.
Defined.
